(** * Landmark-to-metric geometry engine (golden.py)

    A shallow embedding of [FaceAnalyzer] and [analyze_face_ratios] from
    [horizon-mediapipe-py/golden.py].

    Conventions of the embedding:
    - Python/NumPy floats are modelled as real numbers ([R]); rounding,
      NaN and infinities are outside the model.
    - Python dicts are association lists in insertion order (the order
      in which [json.dump] serialises them).
    - Exceptions are an error monad ([result]); a bare [try/except] is a
      match on the raised case.
    - [np.polyfit] is a library routine taken as a section variable. *)

From Stdlib Require Import Reals Lra Lia List String ZArith Bool.
Import ListNotations.
Open Scope string_scope.
Open Scope R_scope.

Set Implicit Arguments.
Set Warnings "-register-all".

(** ** Real-number comparisons as booleans *)

Definition Rltb (x y : R) : bool := if Rlt_dec x y then true else false.
Definition Reqb (x y : R) : bool := if Req_dec_T x y then true else false.


(** ** Exceptions *)

Inductive exn : Type :=
| KeyError (key : string)
| TypeError (msg : string)
| AttributeError (msg : string)
| LinAlgError (msg : string).

Inductive result (A : Type) : Type :=
| Ok (a : A)
| Raise (e : exn).
Arguments Ok {A} a.
Arguments Raise {A} e.

Definition bind {A B} (m : result A) (k : A -> result B) : result B :=
  match m with
  | Ok a => k a
  | Raise e => Raise e
  end.

Notation "x <- m ;; k" := (bind m (fun x => k))
  (at level 61, m at next level, right associativity).

(** [str(e)] *)
Definition exn_str (e : exn) : string :=
  match e with
  | KeyError k => "'" ++ k ++ "'"
  | TypeError m => m
  | AttributeError m => m
  | LinAlgError m => m
  end.

(** [traceback.format_exc()]; the stack frames between the header and
    the final line depend on the installation and are left out. *)
Definition format_exc (e : exn) : string :=
  "Traceback (most recent call last): " ++
  match e with
  | KeyError k => "KeyError: '" ++ k ++ "'"
  | TypeError m => "TypeError: " ++ m
  | AttributeError m => "AttributeError: " ++ m
  | LinAlgError m => "numpy.linalg.LinAlgError: " ++ m
  end.

(** ** Dicts and Python values *)

Definition dict (V : Type) : Type := list (string * V).

Fixpoint dict_get {V} (d : dict V) (k : string) : option V :=
  match d with
  | [] => None
  | (k', v) :: d' => if String.eqb k' k then Some v else dict_get d' k
  end.

(** [d[k] = v]: replace in place or append. *)
Fixpoint dict_set {V} (d : dict V) (k : string) (v : V) : dict V :=
  match d with
  | [] => [(k, v)]
  | (k', v') :: d' =>
      if String.eqb k' k then (k', v) :: d' else (k', v') :: dict_set d' k v
  end.

Definition dict_keys {V} (d : dict V) : list string := map fst d.

Inductive pyval : Type :=
| PNone
| PBool (b : bool)
| PInt (z : Z)
| PFloat (r : R)
| PStr (s : string)
| PList (l : list pyval)
| PDict (d : list (string * pyval)).

Definition of_option (o : option R) : pyval :=
  match o with Some r => PFloat r | None => PNone end.

(** ** Constants *)

Definition PHI : R := 1.61803398875.

Definition FALLBACK_INDICES : dict Z :=
  [ ("chin_tip", 152); ("nose_tip", 4); ("subnasale", 2);
    ("L_eye_outer", 33); ("L_eye_inner", 133);
    ("R_eye_inner", 362); ("R_eye_outer", 263);
    ("L_brow_inner", 70); ("R_brow_inner", 336);
    ("L_brow_outer", 105); ("R_brow_outer", 334);
    ("alare_L", 234); ("alare_R", 454);
    ("labiale_superius", 13); ("labiale_inferius", 14);
    ("stomion", 0); ("cheilion_L", 61); ("cheilion_R", 291);
    ("L_pupil", 468); ("R_pupil", 473);
    ("gonion_L", 172); ("gonion_R", 397); ("menton", 175);
    ("trichion", 10); ("nasion", 6);
    ("L_ear_top", 93); ("R_ear_top", 323);
    ("L_cheek", 205); ("R_cheek", 425) ]%Z.

(** ** Points and module-level helpers *)

Record P3 : Type := mkP3 { px : R; py : R; pz : R }.

Inductive mode : Type := D2 | D3.

Definition sq (x : R) : R := x * x.

Definition dist (p1 p2 : P3) (m : mode) : R :=
  match m with
  | D2 => sqrt (sq (px p1 - px p2) + sq (py p1 - py p2))
  | D3 => sqrt (sq (px p1 - px p2) + sq (py p1 - py p2) + sq (pz p1 - pz p2))
  end.

Definition safe_ratio (num denom : R) (eps : R) : option R :=
  if Rltb (Rabs denom) eps then None else Some (num / denom).

Definition degrees (x : R) : R := x * (180 / PI).

(** [np.arctan2(y, x)] *)
Definition arctan2 (y x : R) : R :=
  if Rltb 0 x then atan (y / x)
  else if Rltb x 0 then
         (if Rltb y 0 then atan (y / x) - PI else atan (y / x) + PI)
  else if Rltb 0 y then PI / 2
  else if Rltb y 0 then - (PI / 2)
  else 0.

Definition clip (x lo hi : R) : R := Rmin (Rmax x lo) hi.

Definition sub3 (p q : P3) : P3 :=
  mkP3 (px p - px q) (py p - py q) (pz p - pz q).
Definition dot3 (p q : P3) : R := px p * px q + py p * py q + pz p * pz q.
Definition norm3 (p : P3) : R := sqrt (sq (px p) + sq (py p) + sq (pz p)).

Definition angle_deg (p1 vertex p2 : P3) : R :=
  let v1 := sub3 p1 vertex in
  let v2 := sub3 p2 vertex in
  let cos_angle := dot3 v1 v2 / (norm3 v1 * norm3 v2 + 1e-8) in
  let cos_angle := clip cos_angle (-1) 1 in
  degrees (acos cos_angle).

Definition create_metric (value : pyval) (method : string)
    (source_points : list string) (valid : bool) (confidence : R) : pyval :=
  PDict [ ("value", value);
          ("method", PStr method);
          ("source_points", PList (map PStr source_points));
          ("valid", PBool valid);
          ("confidence", PFloat confidence) ].

Fixpoint Rsum (l : list R) : R :=
  match l with [] => 0 | x :: l' => x + Rsum l' end.

(** [np.mean] of a non-empty list of floats. *)
Definition np_mean (l : list R) : R := Rsum l / INR (List.length l).

(** [np.std] (population standard deviation) of a list of floats. *)
Definition np_std (l : list R) : R :=
  let m := np_mean l in
  sqrt (np_mean (map (fun x => sq (Rabs (x - m))) l)).

(** ** Input records *)

(** A landmark dict; a field is [None] when the key is absent. *)
Record Landmark : Type := mkLandmark {
  lm_x : option R;
  lm_y : option R;
  lm_z : option R;
  lm_visibility : option R;
  lm_presence : option R
}.

Record Blendshape : Type := mkBlendshape {
  bs_category_name : option string;
  bs_score : option R
}.

(** NumPy indexing [arr[i]] with Python's negative indices; [None] is
    [IndexError]. *)
Definition np_index {A} (l : list A) (i : Z) : option A :=
  let n := Z.of_nat (List.length l) in
  if (0 <=? i)%Z then nth_error l (Z.to_nat i)
  else if (- n <=? i)%Z then nth_error l (Z.to_nat (n + i))
  else None.

(** [d.get(k, default)] *)
Definition get_default {V} (d : dict V) (k : string) (default : V) : V :=
  match dict_get d k with Some v => v | None => default end.

(** ** FaceAnalyzer *)

Record FaceAnalyzer : Type := mkFaceAnalyzer {
  landmarks : list Landmark;
  blendshapes : list Blendshape;
  index_map : dict Z;
  fallback_indices_used : bool;
  visibility_threshold : R;
  eps : R;
  points : list P3;
  visibility : list R;
  scale_basis : R
}.

(** [[lm['x'], lm['y'], lm['z']]] *)
Definition landmark_row (lm : Landmark) : result P3 :=
  match lm_x lm with
  | None => Raise (KeyError "x")
  | Some x =>
    match lm_y lm with
    | None => Raise (KeyError "y")
    | Some y =>
      match lm_z lm with
      | None => Raise (KeyError "z")
      | Some z => Ok (mkP3 x y z)
      end
    end
  end.

Fixpoint landmark_rows (lms : list Landmark) : result (list P3) :=
  match lms with
  | [] => Ok []
  | lm :: lms' =>
      p <- landmark_row lm ;;
      ps <- landmark_rows lms' ;;
      Ok (p :: ps)
  end.

Definition all_zero (v : list R) : bool := forallb (fun x => Reqb x 0) v.

Definition rotate_row (cos_r sin_r : R) (p : P3) : P3 :=
  mkP3 (px p * cos_r + py p * - sin_r + pz p * 0)
       (px p * sin_r + py p * cos_r + pz p * 0)
       (px p * 0 + py p * 0 + pz p * 1).

(** Reads [self.index_map] and [self.points]; returns the new
    [self.points].  The rotation is computed in exact real arithmetic: the
    rounding residue that float64 [arctan2], [cos], [sin] and [np.dot]
    leave in the source is not part of the model. *)
Definition _apply_roll_correction (index_map : dict Z) (points : list P3)
    : list P3 :=
  match np_index points (get_default index_map "L_eye_outer" 33%Z) with
  | None => points
  | Some left_eye =>
    match np_index points (get_default index_map "R_eye_outer" 263%Z) with
    | None => points
    | Some right_eye =>
        let dx := px right_eye - px left_eye in
        let dy := py right_eye - py left_eye in
        let roll_angle := arctan2 dy dx in
        let cos_r := cos (- roll_angle) in
        let sin_r := sin (- roll_angle) in
        map (rotate_row cos_r sin_r) points
    end
  end.

(** The distance of the two named points, when both index. *)
Definition indexed_dist (index_map : dict Z) (points : list P3)
    (l : string) (dl : Z) (r : string) (dr : Z) : option R :=
  match np_index points (get_default index_map l dl) with
  | None => None
  | Some pl =>
    match np_index points (get_default index_map r dr) with
    | None => None
    | Some pr => Some (dist pl pr D2)
    end
  end.

(** Reads [self.index_map], [self.points] and [self.eps]. *)
Definition _compute_scale_basis (index_map : dict Z) (points : list P3)
    (eps : R) : R :=
  let fallback :=
    match indexed_dist index_map points "L_cheek" 205%Z "R_cheek" 425%Z with
    | Some face_width => if Rltb eps face_width then face_width else 1
    | None => 1
    end in
  match indexed_dist index_map points "L_eye_outer" 33%Z "R_eye_outer" 263%Z
  with
  | Some eye_width => if Rltb eps eye_width then eye_width else fallback
  | None => fallback
  end.

(** [index_map or FALLBACK_INDICES]: an empty dict is falsy. *)
Definition index_map_or_fallback (index_map : option (dict Z)) : dict Z :=
  match index_map with
  | Some (e :: m) => e :: m
  | _ => FALLBACK_INDICES
  end.

(** The value of [self.visibility] chosen in [__init__]. *)
Definition init_visibility (landmarks : list Landmark) : list R :=
  let visibility_values :=
    map (fun lm => match lm_visibility lm with Some v => v | None => 1 end)
        landmarks in
  if all_zero visibility_values
  then map (fun lm => match lm_presence lm with Some v => v | None => 1 end)
           landmarks
  else visibility_values.

Definition FaceAnalyzer_init (landmarks : list Landmark)
    (blendshapes : option (list Blendshape))
    (index_map : option (dict Z)) : result FaceAnalyzer :=
  let blendshapes' := match blendshapes with Some b => b | None => [] end in
  let index_map' := index_map_or_fallback index_map in
  let fallback_indices_used' :=
    match index_map with None => true | Some _ => false end in
  let eps' := 1e-8 in
  points0 <- landmark_rows landmarks ;;
  let visibility' := init_visibility landmarks in
  let points1 := _apply_roll_correction index_map' points0 in
  Ok (mkFaceAnalyzer landmarks blendshapes' index_map'
        fallback_indices_used' 0.3 eps' points1 visibility'
        (_compute_scale_basis index_map' points1 eps')).

Definition _get_point (self : FaceAnalyzer) (name : string) : option P3 :=
  match dict_get (index_map self) name with
  | None => None
  | Some idx =>
      if (Z.of_nat (List.length (points self)) <=? idx)%Z then None
      else if negb (all_zero (visibility self)) then
        match np_index (visibility self) idx with
        | None => None
        | Some v =>
            if Rltb v (visibility_threshold self) then None
            else np_index (points self) idx
        end
      else np_index (points self) idx
  end.

Definition _compute_glabella (self : FaceAnalyzer) : option P3 :=
  let left_brow := _get_point self "L_brow_inner" in
  let right_brow := _get_point self "R_brow_inner" in
  match left_brow, right_brow with
  | Some l, Some r =>
      Some (mkP3 ((px l + px r) / 2) ((py l + py r) / 2) ((pz l + pz r) / 2))
  | _, _ => None
  end.

(** *** Eyes *)

(** Body of the first loop of [analyze_eyes], for one [side]. *)
Definition eyes_side (self : FaceAnalyzer) (eyes : dict pyval)
    (side : string) : dict pyval :=
  let outer := _get_point self (side ++ "_eye_outer") in
  let inner := _get_point self (side ++ "_eye_inner") in
  match outer, inner with
  | Some outer, Some inner =>
      let fissure_length := dist outer inner D2 / scale_basis self in
      let eyes := dict_set eyes ("fissure_length_" ++ side)
        (create_metric (PFloat fissure_length) "2D"
           [side ++ "_eye_outer"; side ++ "_eye_inner"] true 1) in
      let dy := py outer - py inner in
      let dx := Rabs (px outer - px inner) in
      let tilt_deg :=
        if String.eqb side "L" then degrees (arctan2 dy dx)
        else degrees (arctan2 dy dx) in
      dict_set eyes ("canthal_tilt_deg_" ++ side)
        (create_metric (PFloat tilt_deg) "2D"
           [side ++ "_eye_outer"; side ++ "_eye_inner"] true 1)
  | _, _ => eyes
  end.

(** Body of the brow loop of [analyze_eyes], for one [side]. *)
Definition brow_side (self : FaceAnalyzer) (eyes : dict pyval)
    (side : string) : dict pyval :=
  let brow_inner := _get_point self (side ++ "_brow_inner") in
  let brow_outer := _get_point self (side ++ "_brow_outer") in
  let eye_center := _get_point self (side ++ "_eye_inner") in
  match brow_inner, brow_outer, eye_center with
  | Some brow_inner, Some brow_outer, Some eye_center =>
      let brow_height :=
        Rabs (py brow_inner - py eye_center) / scale_basis self in
      let eyes := dict_set eyes ("brow_height_" ++ side)
        (create_metric (PFloat brow_height) "2D"
           [side ++ "_brow_inner"; side ++ "_eye_inner"] true 1) in
      let slope :=
        (py brow_outer - py brow_inner)
        / (Rabs (px brow_outer - px brow_inner) + eps self) in
      dict_set eyes ("brow_slope_" ++ side)
        (create_metric (PFloat slope) "2D"
           [side ++ "_brow_inner"; side ++ "_brow_outer"] true 1)
  | _, _, _ => eyes
  end.

Definition analyze_eyes (self : FaceAnalyzer) : dict pyval :=
  let eyes := [] in
  let eyes := fold_left (eyes_side self) ["L"; "R"] eyes in
  let left_inner := _get_point self "L_eye_inner" in
  let right_inner := _get_point self "R_eye_inner" in
  let left_outer := _get_point self "L_eye_outer" in
  let right_outer := _get_point self "R_eye_outer" in
  let eyes :=
    match left_inner, right_inner, left_outer, right_outer with
    | Some left_inner, Some right_inner, Some left_outer, Some right_outer =>
        let intercanthal := dist left_inner right_inner D2 in
        let eye_width_total := dist left_outer right_outer D2 in
        match safe_ratio intercanthal eye_width_total 1e-8 with
        | Some ipd_ratio =>
            dict_set eyes "intercanthal_over_eye_width"
              (create_metric (PFloat ipd_ratio) "2D"
                 ["L_eye_inner"; "R_eye_inner"; "L_eye_outer"; "R_eye_outer"]
                 true 1)
        | None => eyes
        end
    | _, _, _, _ => eyes
    end in
  fold_left (brow_side self) ["L"; "R"] eyes.

(** *** Nose *)

Definition analyze_nose (self : FaceAnalyzer) : dict pyval :=
  let nose := [] in
  let nose_tip := _get_point self "nose_tip" in
  let subnasale := _get_point self "subnasale" in
  let nasion := _get_point self "nasion" in
  let alare_l := _get_point self "alare_L" in
  let alare_r := _get_point self "alare_R" in
  let nose :=
    match alare_l, alare_r with
    | Some alare_l, Some alare_r =>
        let alar_width := dist alare_l alare_r D2 in
        let left_eye_inner := _get_point self "L_eye_inner" in
        let right_eye_inner := _get_point self "R_eye_inner" in
        match left_eye_inner, right_eye_inner with
        | Some left_eye_inner, Some right_eye_inner =>
            let inter_eye := dist left_eye_inner right_eye_inner D2 in
            dict_set nose "alar_width_over_inter_eye"
              (create_metric (of_option (safe_ratio alar_width inter_eye 1e-8))
                 "2D" ["alare_L"; "alare_R"; "L_eye_inner"; "R_eye_inner"]
                 true 1)
        | _, _ =>
            dict_set nose "alar_width_normalized"
              (create_metric (PFloat (alar_width / scale_basis self))
                 "2D" ["alare_L"; "alare_R"] true 1)
        end
    | _, _ => nose
    end in
  let nose :=
    match nasion, subnasale with
    | Some nasion, Some subnasale =>
        let nasal_length := dist nasion subnasale D2 in
        let chin_tip := _get_point self "chin_tip" in
        match chin_tip with
        | Some chin_tip =>
            let face_height := dist nasion chin_tip D2 in
            match safe_ratio nasal_length face_height 1e-8 with
            | Some ratio =>
                dict_set nose "nasal_length_over_face_height"
                  (create_metric (PFloat ratio) "2D"
                     ["nasion"; "subnasale"; "chin_tip"] true 1)
            | None => nose
            end
        | None => nose
        end
    | _, _ => nose
    end in
  let nose :=
    match nose_tip, subnasale with
    | Some nose_tip, Some subnasale =>
        let projection := Rabs (pz nose_tip - pz subnasale) in
        dict_set nose "tip_projection_3D_over_IPD"
          (create_metric (PFloat (projection / scale_basis self)) "3D"
             ["nose_tip"; "subnasale"] true 1)
    | _, _ => nose
    end in
  let nose :=
    match nose_tip, subnasale with
    | Some nose_tip, Some subnasale =>
        let upper_lip := _get_point self "labiale_superius" in
        match upper_lip with
        | Some upper_lip =>
            let angle := angle_deg nose_tip subnasale upper_lip in
            dict_set nose "nasal_tip_to_upper_lip_angle_deg"
              (create_metric (PFloat angle) "2D"
                 ["nose_tip"; "subnasale"; "labiale_superius"] true 1)
        | None => nose
        end
    | _, _ => nose
    end in
  nose.

(** *** Structure *)

Definition analyze_structure (self : FaceAnalyzer) : dict pyval :=
  let structure := [] in
  let chin_tip := _get_point self "chin_tip" in
  let nasion := _get_point self "nasion" in
  let glabella := _compute_glabella self in
  let subnasale := _get_point self "subnasale" in
  let structure :=
    match glabella, subnasale, chin_tip with
    | Some glabella, Some subnasale, Some chin_tip =>
        let upper_third :=
          match nasion with Some n => dist glabella n D2 | None => 0 end in
        let middle_third :=
          match nasion with Some n => dist n subnasale D2 | None => 0 end in
        let lower_third := dist subnasale chin_tip D2 in
        if Rltb (eps self) middle_third then
          let structure := dict_set structure "upper_to_middle_third"
            (create_metric
               (of_option (safe_ratio upper_third middle_third 1e-8)) "2D"
               ["glabella"; "nasion"; "subnasale"] true 1) in
          dict_set structure "lower_to_middle_third"
            (create_metric
               (of_option (safe_ratio lower_third middle_third 1e-8)) "2D"
               ["subnasale"; "chin_tip"; "nasion"] true 1)
        else structure
    | _, _, _ => structure
    end in
  let structure :=
    match chin_tip, nasion with
    | Some chin_tip, Some nasion =>
        let face_height := dist nasion chin_tip D2 in
        let left_cheek := _get_point self "L_cheek" in
        let right_cheek := _get_point self "R_cheek" in
        match left_cheek, right_cheek with
        | Some left_cheek, Some right_cheek =>
            let face_width := dist left_cheek right_cheek D2 in
            match safe_ratio face_height face_width 1e-8 with
            | Some ratio =>
                dict_set structure "face_height_over_width"
                  (create_metric (PFloat ratio) "2D"
                     ["nasion"; "chin_tip"; "L_cheek"; "R_cheek"] true 1)
            | None => structure
            end
        | _, _ => structure
        end
    | _, _ => structure
    end in
  let gonion_l := _get_point self "gonion_L" in
  let gonion_r := _get_point self "gonion_R" in
  let menton := _get_point self "menton" in
  let structure :=
    match gonion_l, gonion_r with
    | Some gonion_l, Some gonion_r =>
        let gonial_width := dist gonion_l gonion_r D2 / scale_basis self in
        let structure := dict_set structure "gonial_width_normalized"
          (create_metric (PFloat gonial_width) "2D"
             ["gonion_L"; "gonion_R"] true 1) in
        match menton with
        | Some menton =>
            let angle := angle_deg gonion_l menton gonion_r in
            dict_set structure "mandibular_angle_deg"
              (create_metric (PFloat angle) "2D"
                 ["gonion_L"; "menton"; "gonion_R"] true 1)
        | None => structure
        end
    | _, _ => structure
    end in
  let structure :=
    match chin_tip, subnasale with
    | Some chin_tip, Some subnasale =>
        let chin_projection :=
          Rabs (pz chin_tip - pz subnasale) / scale_basis self in
        dict_set structure "chin_prominence_3D"
          (create_metric (PFloat chin_projection) "3D"
             ["chin_tip"; "subnasale"] true 1)
    | _, _ => structure
    end in
  structure.

(** *** Symmetry *)

Definition symmetry_pairs : list (string * string) :=
  [ ("L_eye_outer", "R_eye_outer");
    ("L_eye_inner", "R_eye_inner");
    ("L_brow_inner", "R_brow_inner");
    ("L_brow_outer", "R_brow_outer");
    ("alare_L", "alare_R");
    ("cheilion_L", "cheilion_R");
    ("gonion_L", "gonion_R") ].

(** Body of the loop over [pairs]; the accumulator is
    [(midline_deviations, bilateral_deltas)]. *)
Definition symmetry_pair (self : FaceAnalyzer)
    (acc : list R * dict pyval) (pair : string * string)
    : list R * dict pyval :=
  let '(midline_deviations, bilateral_deltas) := acc in
  let '(left_name, right_name) := pair in
  let left_pt := _get_point self left_name in
  let right_pt := _get_point self right_name in
  match left_pt, right_pt with
  | Some left_pt, Some right_pt =>
      let midpoint_x := (px left_pt + px right_pt) / 2 in
      let midline_dev := Rabs (midpoint_x - 0.5) / scale_basis self in
      let left_dist := Rabs (px left_pt) in
      let right_dist := Rabs (px right_pt) in
      let delta := Rabs (left_dist - right_dist) / scale_basis self in
      ((midline_deviations ++ [midline_dev])%list,
       dict_set bilateral_deltas (left_name ++ "_vs_" ++ right_name)
         (PFloat delta))
  | _, _ => acc
  end.

Definition analyze_symmetry (self : FaceAnalyzer) : dict pyval :=
  let symmetry := [] in
  let pairs := symmetry_pairs in
  let '(midline_deviations, bilateral_deltas) :=
    fold_left (symmetry_pair self) pairs ([], []) in
  let symmetry :=
    match midline_deviations with
    | [] => symmetry
    | _ :: _ =>
        let avg_deviation := np_mean midline_deviations in
        let score := Rmax 0 (Rmin 1 (1 - avg_deviation / 5)) in
        dict_set symmetry "midline_symmetry_score"
          (create_metric (PFloat score) "2D"
             (map fst pairs ++ map snd pairs)%list true 1)
    end in
  dict_set symmetry "bilateral_feature_deltas" (PDict bilateral_deltas).

(** *** Profile *)

Definition analyze_profile (self : FaceAnalyzer) : dict pyval :=
  let profile := [] in
  let nose_tip := _get_point self "nose_tip" in
  let chin_tip := _get_point self "chin_tip" in
  let upper_lip := _get_point self "labiale_superius" in
  let lower_lip := _get_point self "labiale_inferius" in
  let profile :=
    match nose_tip, chin_tip with
    | Some nose_tip, Some chin_tip =>
        let profile :=
          match upper_lip with
          | Some upper_lip =>
              let e_line_upper :=
                Rabs (pz upper_lip - (pz nose_tip + pz chin_tip) / 2) in
              dict_set profile "e_line_upper_lip"
                (create_metric (PFloat (e_line_upper / scale_basis self)) "3D"
                   ["nose_tip"; "chin_tip"; "labiale_superius"] true 1)
          | None => profile
          end in
        let profile :=
          match lower_lip with
          | Some lower_lip =>
              let e_line_lower :=
                Rabs (pz lower_lip - (pz nose_tip + pz chin_tip) / 2) in
              dict_set profile "e_line_lower_lip"
                (create_metric (PFloat (e_line_lower / scale_basis self)) "3D"
                   ["nose_tip"; "chin_tip"; "labiale_inferius"] true 1)
          | None => profile
          end in
        let tip_projection := Rabs (pz nose_tip) in
        let chin_projection := Rabs (pz chin_tip) in
        match safe_ratio tip_projection chin_projection 1e-8 with
        | Some ratio =>
            dict_set profile "tip_projection_over_chin_projection"
              (create_metric (PFloat ratio) "3D"
                 ["nose_tip"; "chin_tip"] true 1)
        | None => profile
        end
    | _, _ => profile
    end in
  let left_cheek := _get_point self "L_cheek" in
  let right_cheek := _get_point self "R_cheek" in
  let profile :=
    match left_cheek, right_cheek with
    | Some left_cheek, Some right_cheek =>
        let midface_depth :=
          (Rabs (pz left_cheek) + Rabs (pz right_cheek)) / 2 in
        let face_width := dist left_cheek right_cheek D2 in
        match safe_ratio midface_depth face_width 1e-8 with
        | Some ratio =>
            dict_set profile "midface_depth_over_face_width"
              (create_metric (PFloat ratio) "3D" ["L_cheek"; "R_cheek"] true 1)
        | None => profile
        end
    | _, _ => profile
    end in
  profile.

(** *** Golden-ratio diagnostics *)

(** [m.get('value', 1.0)] on an entry of [self.structure]. *)
Definition metric_get_value (m : pyval) : result pyval :=
  match m with
  | PDict d => Ok (get_default d "value" (PFloat 1))
  | _ => Raise (AttributeError "object has no attribute 'get'")
  end.

(** The elements of a list handed to a NumPy reduction: numbers are
    converted to floats, [None] and other objects raise. *)
Fixpoint as_floats (l : list pyval) : result (list R) :=
  match l with
  | [] => Ok []
  | v :: l' =>
      match v with
      | PFloat r => rs <- as_floats l' ;; Ok (r :: rs)
      | PInt z => rs <- as_floats l' ;; Ok (IZR z :: rs)
      | PBool b => rs <- as_floats l' ;; Ok ((if b then 1 else 0) :: rs)
      | _ => Raise (TypeError "unsupported operand type(s)")
      end
  end.

(** [structure] is [self.structure], set by [analyze] before the call. *)
Definition analyze_golden_diagnostics (self : FaceAnalyzer)
    (structure : dict pyval) : result (dict pyval) :=
  let golden := [] in
  let ratios_to_check := [] in
  let left_eye_outer := _get_point self "L_eye_outer" in
  let right_eye_outer := _get_point self "R_eye_outer" in
  let left_mouth := _get_point self "cheilion_L" in
  let right_mouth := _get_point self "cheilion_R" in
  let ratios_to_check :=
    match left_eye_outer, right_eye_outer, left_mouth, right_mouth with
    | Some left_eye_outer, Some right_eye_outer,
      Some left_mouth, Some right_mouth =>
        let eye_width := dist left_eye_outer right_eye_outer D2 in
        let mouth_width := dist left_mouth right_mouth D2 in
        match safe_ratio eye_width mouth_width 1e-8 with
        | Some ratio =>
            (ratios_to_check ++ [("eye_to_mouth_width", ratio)])%list
        | None => ratios_to_check
        end
    | _, _, _, _ => ratios_to_check
    end in
  let chin_tip := _get_point self "chin_tip" in
  let nasion := _get_point self "nasion" in
  let left_cheek := _get_point self "L_cheek" in
  let right_cheek := _get_point self "R_cheek" in
  let ratios_to_check :=
    match chin_tip, nasion, left_cheek, right_cheek with
    | Some chin_tip, Some nasion, Some left_cheek, Some right_cheek =>
        let face_height := dist nasion chin_tip D2 in
        let face_width := dist left_cheek right_cheek D2 in
        match safe_ratio face_height face_width 1e-8 with
        | Some ratio =>
            (ratios_to_check ++ [("face_height_to_width", ratio)])%list
        | None => ratios_to_check
        end
    | _, _, _, _ => ratios_to_check
    end in
  let subnasale := _get_point self "subnasale" in
  let stomion := _get_point self "stomion" in
  let ratios_to_check :=
    match subnasale, stomion, chin_tip with
    | Some subnasale, Some stomion, Some chin_tip =>
        let nose_to_mouth := dist subnasale stomion D2 in
        let mouth_to_chin := dist stomion chin_tip D2 in
        match safe_ratio nose_to_mouth mouth_to_chin 1e-8 with
        | Some ratio =>
            (ratios_to_check ++ [("nose_mouth_to_mouth_chin", ratio)])%list
        | None => ratios_to_check
        end
    | _, _, _ => ratios_to_check
    end in
  let phi_deviations :=
    fold_left
      (fun phi_deviations (nr : string * R) =>
         let '(name, ratio) := nr in
         let deviation := Rabs (ratio - PHI) / PHI in
         dict_set phi_deviations (name ++ "_phi_deviation")
           (create_metric (PFloat deviation) "2D" [] true 0.8))
      ratios_to_check [] in
  let golden := dict_set golden "phi_deviations" (PDict phi_deviations) in
  let thirds_ratios := [] in
  thirds_ratios <-
    match dict_get structure "upper_to_middle_third" with
    | Some m => v <- metric_get_value m ;; Ok (thirds_ratios ++ [v])%list
    | None => Ok thirds_ratios
    end ;;
  thirds_ratios <-
    match dict_get structure "lower_to_middle_third" with
    | Some m => v <- metric_get_value m ;; Ok (thirds_ratios ++ [v])%list
    | None => Ok thirds_ratios
    end ;;
  golden <-
    match thirds_ratios with
    | [] => Ok golden
    | _ :: _ =>
        rs <- as_floats thirds_ratios ;;
        let evenness := 1 - np_std rs in
        Ok (dict_set golden "thirds_evenness"
              (create_metric (PFloat evenness) "2D" [] true 0.7))
    end ;;
  let left_outer := _get_point self "L_eye_outer" in
  let left_inner := _get_point self "L_eye_inner" in
  let right_inner := _get_point self "R_eye_inner" in
  let right_outer := _get_point self "R_eye_outer" in
  let golden :=
    match left_outer, left_inner, right_inner, right_outer with
    | Some left_outer, Some left_inner, Some right_inner, Some right_outer =>
        let total_width := dist left_outer right_outer D2 in
        let eye_width_l := dist left_outer left_inner D2 in
        let eye_width_r := dist right_inner right_outer D2 in
        let intercanthal := dist left_inner right_inner D2 in
        let fifths := [eye_width_l; intercanthal; eye_width_r] in
        let ideal_fifth := total_width / 5 in
        let fifth_deviations :=
          map (fun f => Rabs (f - ideal_fifth) / ideal_fifth) fifths in
        dict_set golden "fifths_evenness"
          (create_metric (PFloat (1 - np_mean fifth_deviations)) "2D"
             ["L_eye_outer"; "L_eye_inner"; "R_eye_inner"; "R_eye_outer"]
             true 1)
    | _, _, _, _ => golden
    end in
  Ok golden.

(** *** Blendshapes and pose *)

Definition analyze_blendshapes (self : FaceAnalyzer) : dict pyval :=
  match blendshapes self with
  | [] => []
  | _ :: _ =>
      let active :=
        fold_left
          (fun active bs =>
             let score_is_active :=
               match bs_score bs with
               | Some s => Rltb 0.1 s
               | None => false
               end in
             if score_is_active then
               (active ++
                [PDict [ ("name",
                          PStr (match bs_category_name bs with
                                | Some n => n
                                | None => "unknown"
                                end));
                         ("score",
                          match bs_score bs with
                          | Some s => PFloat s
                          | None => PInt 0
                          end) ]])%list
             else active)
          (blendshapes self) [] in
      [ ("total_blendshapes",
         PInt (Z.of_nat (List.length (blendshapes self))));
        ("active_blendshapes", PList active) ]
  end.

Definition _estimate_pose (self : FaceAnalyzer) : dict pyval :=
  let nose_tip := _get_point self "nose_tip" in
  let chin_tip := _get_point self "chin_tip" in
  let left_ear := _get_point self "L_ear_top" in
  let right_ear := _get_point self "R_ear_top" in
  let pose := [] in
  let pose :=
    match left_ear, right_ear with
    | Some left_ear, Some right_ear =>
        let roll :=
          degrees (arctan2 (py right_ear - py left_ear)
                           (px right_ear - px left_ear)) in
        dict_set pose "roll_deg" (PFloat roll)
    | _, _ => pose
    end in
  let pose :=
    match nose_tip with
    | Some nose_tip =>
        let yaw := degrees (asin (clip (px nose_tip * 2) (-1) 1)) in
        dict_set pose "yaw_deg" (PFloat yaw)
    | None => pose
    end in
  let pose :=
    match nose_tip, chin_tip with
    | Some nose_tip, Some chin_tip =>
        let pitch :=
          degrees (arctan2 (py chin_tip - py nose_tip)
                           (Rabs (pz chin_tip - pz nose_tip) + eps self)) in
        dict_set pose "pitch_deg" (PFloat pitch)
    | _, _ => pose
    end in
  pose.

(** [np.polyfit] itself is the section variable [np_polyfit] below.  This
    instance only serves to run the engine on example inputs that never
    reach a fit: it returns the parabola through three points with
    distinct abscissae (coefficients from the highest degree) and raises
    on anything else, where NumPy would return a rank-deficient
    least-squares solution with a warning. *)
Definition polyfit_parabola (x y : list R) (degree : nat)
    : result (list R) :=
  match x, y, degree with
  | [x1; x2; x3], [y1; y2; y3], 2%nat =>
      if Reqb x1 x2 || Reqb x2 x3 || Reqb x1 x3
      then Raise (LinAlgError "singular Vandermonde system")
      else
        let a := ((y3 - y2) / (x3 - x2) - (y2 - y1) / (x2 - x1)) / (x3 - x1) in
        let b := (y2 - y1) / (x2 - x1) - a * (x1 + x2) in
        let c := y1 - a * x1 * x1 - b * x1 in
        Ok [a; b; c]
  | _, _, _ => Raise (TypeError "expected three points and degree 2")
  end.

Section Engine.

(** [np.polyfit(x, y, deg)]: the coefficients, or the exception raised. *)
Variable np_polyfit : list R -> list R -> nat -> result (list R).

Definition polyfit_curvature (pts : list (R * R)) (degree : nat) : R :=
  if (List.length pts <? degree + 1)%nat then 0
  else
    match np_polyfit (map fst pts) (map snd pts) degree with
    | Ok coeffs =>
        if (2 <=? degree)%nat then
          match coeffs with
          | c0 :: _ => Rabs (2 * c0)
          | [] => 0
          end
        else 0
    | Raise _ => 0
    end.

(** *** Mouth *)

Definition analyze_mouth (self : FaceAnalyzer) : dict pyval :=
  let mouth := [] in
  let left_corner := _get_point self "cheilion_L" in
  let right_corner := _get_point self "cheilion_R" in
  let upper_lip := _get_point self "labiale_superius" in
  let lower_lip := _get_point self "labiale_inferius" in
  let stomion := _get_point self "stomion" in
  let mouth :=
    match left_corner, right_corner with
    | Some left_corner, Some right_corner =>
        let mouth_width := dist left_corner right_corner D2 in
        let mouth := dict_set mouth "mouth_width_over_IPD"
          (create_metric (PFloat (mouth_width / scale_basis self)) "2D"
             ["cheilion_L"; "cheilion_R"] true 1) in
        match stomion with
        | Some stomion =>
            let arc_points :=
              [ (px left_corner, py left_corner);
                (px stomion, py stomion);
                (px right_corner, py right_corner) ] in
            let curvature := polyfit_curvature arc_points 2 in
            dict_set mouth "smile_arc_curvature"
              (create_metric (PFloat curvature) "2D"
                 ["cheilion_L"; "stomion"; "cheilion_R"] true 1)
        | None => mouth
        end
    | _, _ => mouth
    end in
  let mouth :=
    match upper_lip, lower_lip, stomion with
    | Some upper_lip, Some lower_lip, Some stomion =>
        let upper_thickness := dist upper_lip stomion D2 in
        let lower_thickness := dist stomion lower_lip D2 in
        match safe_ratio upper_thickness lower_thickness 1e-8 with
        | Some ratio =>
            dict_set mouth "upper_to_lower_lip_ratio"
              (create_metric (PFloat ratio) "2D"
                 ["labiale_superius"; "stomion"; "labiale_inferius"] true 1)
        | None => mouth
        end
    | _, _, _ => mouth
    end in
  let mouth :=
    match upper_lip, stomion with
    | Some upper_lip, Some stomion =>
        let bow_depth := Rabs (py upper_lip - py stomion) / scale_basis self in
        dict_set mouth "cupid_bow_depth"
          (create_metric (PFloat bow_depth) "2D"
             ["labiale_superius"; "stomion"] true 1)
    | _, _ => mouth
    end in
  mouth.

(** *** Orchestration *)

Definition analyze (self : FaceAnalyzer) : result pyval :=
  let eyes := analyze_eyes self in
  let nose := analyze_nose self in
  let mouth := analyze_mouth self in
  let structure := analyze_structure self in
  let symmetry := analyze_symmetry self in
  let profile := analyze_profile self in
  golden <- analyze_golden_diagnostics self structure ;;
  let blendshape_summary := analyze_blendshapes self in
  let pose := _estimate_pose self in
  Ok (PDict
        [ ("normalization",
           PDict [ ("scale_basis", PFloat (scale_basis self));
                   ("fallback_indices_used",
                    PBool (fallback_indices_used self));
                   ("visibility_threshold",
                    PFloat (visibility_threshold self)) ]);
          ("pose_estimation", PDict pose);
          ("eyes", PDict eyes);
          ("nose", PDict nose);
          ("mouth", PDict mouth);
          ("structure", PDict structure);
          ("symmetry", PDict symmetry);
          ("profile", PDict profile);
          ("golden_diagnostics", PDict golden);
          ("blendshape_summary", PDict blendshape_summary) ]).

Definition failure_envelope (e : exn) : pyval :=
  PDict [ ("error", PStr (exn_str e));
          ("traceback", PStr (format_exc e));
          ("status", PStr "failed") ].

Definition analyze_face_ratios (landmarks : list Landmark)
    (blendshapes : option (list Blendshape))
    (index_map : option (dict Z)) : pyval :=
  match (analyzer <- FaceAnalyzer_init landmarks blendshapes index_map ;;
         analyze analyzer) with
  | Ok r => r
  | Raise e => failure_envelope e
  end.

End Engine.

(** ** Definitions used to state the properties *)

(** The coordinates of a landmark, as present in its dict. *)
Definition lm_coords (lm : Landmark) : option R * option R * option R :=
  (lm_x lm, lm_y lm, lm_z lm).

(** A distance that is available and exceeds the epsilon [1e-8]. *)
Definition exceeds_eps (d : option R) : Prop :=
  exists w, d = Some w /\ 1e-8 < w.

(** Point lookup by index alone: the point a name resolves to, when the
    index is within the bounds of the point array. *)
Definition resolve_point (self : FaceAnalyzer) (name : string) : option P3 :=
  match dict_get (index_map self) name with
  | None => None
  | Some idx => np_index (points self) idx
  end.

(** The landmark with its visibility set to full confidence. *)
Definition with_full_visibility (lm : Landmark) : Landmark :=
  mkLandmark (lm_x lm) (lm_y lm) (lm_z lm) (Some 1) (lm_presence lm).

(** The landmark with its visibility replaced by its presence. *)
Definition visibility_from_presence (lm : Landmark) : Landmark :=
  mkLandmark (lm_x lm) (lm_y lm) (lm_z lm) (lm_presence lm) (lm_presence lm).

(** The tilt angle [analyze_eyes] computes from the canthus points of
    one side. *)
Definition canthal_tilt (outer inner : P3) : R :=
  degrees (arctan2 (py outer - py inner) (Rabs (px outer - px inner))).

(** The fixed top-level keys of an analysis result. *)
Definition top_level_keys : list string :=
  [ "normalization"; "pose_estimation"; "eyes"; "nose"; "mouth";
    "structure"; "symmetry"; "profile"; "golden_diagnostics";
    "blendshape_summary" ].

(** A complete analysis result: a dict with exactly the fixed top-level
    keys, each holding a mapping, and no error field. *)
Definition is_analysis_result (v : pyval) : Prop :=
  exists d,
    v = PDict d /\
    dict_keys d = top_level_keys /\
    Forall (fun kv => exists m, snd kv = PDict m) d /\
    dict_get d "error" = None.

(** An error envelope: a dict with a string error field and status
    "failed", and none of the keys of an analysis result. *)
Definition is_error_envelope (v : pyval) : Prop :=
  exists d msg,
    v = PDict d /\
    dict_get d "error" = Some (PStr msg) /\
    dict_get d "status" = Some (PStr "failed") /\
    forall k, In k top_level_keys -> dict_get d k = None.

(** [v[k1][k2]...]: nested lookup in a result. *)
Fixpoint py_path (v : pyval) (path : list string) : option pyval :=
  match path with
  | [] => Some v
  | k :: path' =>
      match v with
      | PDict d =>
          match dict_get d k with
          | Some v' => py_path v' path'
          | None => None
          end
      | _ => None
      end
  end.

(** A metric entry that carries a number. *)
Definition float_metric (v : pyval) : Prop :=
  exists r method source_points confidence,
    v = create_metric (PFloat r) method source_points true confidence.

(** A metric entry whose source points are all available to the
    analyzer. *)
Definition sourced_metric (self : FaceAnalyzer) (v : pyval) : Prop :=
  exists value method source_points confidence,
    v = create_metric value method source_points true confidence /\
    Forall (fun name => _get_point self name <> None) source_points.

(** A metric entry with a numeric value and available source points. *)
Definition sound_metric (self : FaceAnalyzer) (v : pyval) : Prop :=
  float_metric v /\ sourced_metric self v.

(** A blendshape counted as active: a score above 0.1. *)
Definition blendshape_is_active (bs : Blendshape) : bool :=
  match bs_score bs with
  | Some s => Rltb 0.1 s
  | None => false
  end.

(** The entry of [active_blendshapes] for a blendshape. *)
Definition blendshape_entry (bs : Blendshape) : pyval :=
  PDict [ ("name",
           PStr (match bs_category_name bs with
                 | Some n => n
                 | None => "unknown"
                 end));
          ("score",
           match bs_score bs with
           | Some s => PFloat s
           | None => PInt 0
           end) ].

(** An entry of [phi_deviations]: the relative deviation of some ratio
    from PHI, tagged with confidence 0.8. *)
Definition phi_deviation_entry (v : pyval) : Prop :=
  exists ratio,
    v = create_metric (PFloat (Rabs (ratio - PHI) / PHI)) "2D" [] true 0.8.

(** The keys [analyze_golden_diagnostics] can store in [phi_deviations]. *)
Definition phi_deviation_names : list string :=
  [ "eye_to_mouth_width_phi_deviation";
    "face_height_to_width_phi_deviation";
    "nose_mouth_to_mouth_chin_phi_deviation" ].

(** The presence of a landmark, [lm.get('presence', 1.0)]. *)
Definition presence_or_default (lm : Landmark) : R :=
  match lm_presence lm with Some v => v | None => 1 end.

(** The first of the keys x, y, z that a landmark lacks (z when it lacks
    neither x nor y). *)
Definition first_missing_key (lm : Landmark) : string :=
  match lm_x lm with
  | None => "x"
  | Some _ => match lm_y lm with None => "y" | Some _ => "z" end
  end.

(** A landmark lacking one of its coordinates. *)
Definition lacks_coordinate (lm : Landmark) : Prop :=
  lm_x lm = None \/ lm_y lm = None \/ lm_z lm = None.

(** ** Example inputs *)

Definition ex_index_map : dict Z :=
  [ ("L_eye_outer", 0%Z); ("L_eye_inner", 1%Z); ("R_eye_outer", 2%Z) ].

Definition ex_points : list P3 :=
  [ mkP3 0.3 0.4 0; mkP3 0.4 0.5 0; mkP3 0.7 0.4 0 ].

(** Three landmarks with the given confidence values. *)
Definition ex_landmarks (visibility presence : option R) : list Landmark :=
  map (fun p => mkLandmark (Some (px p)) (Some (py p)) (Some (pz p))
                  visibility presence)
      ex_points.

(** Four landmarks whose two inner-eye points coincide. *)
Definition c2_index_map : dict Z :=
  [ ("alare_L", 0%Z); ("alare_R", 1%Z);
    ("L_eye_inner", 2%Z); ("R_eye_inner", 3%Z) ].

Definition c2_points : list P3 :=
  [ mkP3 0.4 0.6 0; mkP3 0.6 0.6 0; mkP3 0.5 0.4 0; mkP3 0.5 0.4 0 ].

Definition c2_landmarks : list Landmark :=
  map (fun p => mkLandmark (Some (px p)) (Some (py p)) (Some (pz p))
                  (Some 1) (Some 1))
      c2_points.

(** Five landmarks on the facial midline with evenly spaced thirds. *)
Definition thirds_index_map : dict Z :=
  [ ("L_brow_inner", 0%Z); ("R_brow_inner", 1%Z); ("nasion", 2%Z);
    ("subnasale", 3%Z); ("chin_tip", 4%Z) ].

Definition thirds_points : list P3 :=
  [ mkP3 0.4 0.2 0; mkP3 0.6 0.2 0; mkP3 0.5 0.4 0; mkP3 0.5 0.6 0;
    mkP3 0.5 0.8 0 ].

Definition thirds_landmarks : list Landmark :=
  map (fun p => mkLandmark (Some (px p)) (Some (py p)) (Some (pz p))
                  (Some 1) (Some 1))
      thirds_points.

(** A custom index map with a negative index. *)
Definition negative_index_map : dict Z := [ ("nose_tip", (-1)%Z) ].

(** The three example points with visibility 0.0 everywhere and a
    presence below the threshold on the second point only. *)
Definition low_presence_landmarks : list Landmark :=
  [ mkLandmark (Some 0.3) (Some 0.4) (Some 0) (Some 0) (Some 0.9);
    mkLandmark (Some 0.4) (Some 0.5) (Some 0) (Some 0) (Some 0.1);
    mkLandmark (Some 0.7) (Some 0.4) (Some 0) (Some 0) (Some 0.9) ].

(** Four landmarks of the lower face: nose tip, chin, subnasale and
    stomion. *)
Definition face_index_map : dict Z :=
  [ ("nose_tip", 0%Z); ("chin_tip", 1%Z); ("subnasale", 2%Z);
    ("stomion", 3%Z) ].

Definition face_points : list P3 :=
  [ mkP3 0.45 0.55 0.1; mkP3 0.5 0.8 0.05; mkP3 0.5 0.6 0;
    mkP3 0.5 0.7 0 ].

Definition face_landmarks : list Landmark :=
  map (fun p => mkLandmark (Some (px p)) (Some (py p)) (Some (pz p))
                  (Some 1) (Some 1))
      face_points.

(** * Properties *)

(** ** Comparisons *)

Lemma Rltb_true (x y : R) : x < y -> Rltb x y = true.
Proof. unfold Rltb; destruct (Rlt_dec x y); [reflexivity | contradiction]. Qed.

Lemma Rltb_false (x y : R) : ~ x < y -> Rltb x y = false.
Proof. unfold Rltb; destruct (Rlt_dec x y); [contradiction | reflexivity]. Qed.

Lemma Rltb_spec (x y : R) : Rltb x y = true <-> x < y.
Proof.
  unfold Rltb; destruct (Rlt_dec x y); split; intro H;
    [assumption | reflexivity | discriminate | contradiction].
Qed.

Lemma Reqb_spec (x y : R) : Reqb x y = true <-> x = y.
Proof.
  unfold Reqb; destruct (Req_dec_T x y); split; intro H;
    [assumption | reflexivity | discriminate | contradiction].
Qed.

Lemma Reqb_refl (x : R) : Reqb x x = true.
Proof. apply Reqb_spec; reflexivity. Qed.

Ltac Rltb_cases :=
  repeat match goal with
  | |- context [Rltb ?a ?b] =>
      let H := fresh "Hlt" in
      destruct (Rlt_dec a b) as [H | H];
      [rewrite (Rltb_true H) | rewrite (Rltb_false H)]
  end.

(** ** [arctan2] on the non-negative x axis *)

Lemma arctan2_zero_nonneg (x : R) : 0 <= x -> arctan2 0 x = 0.
Proof.
  intro Hx. unfold arctan2.
  destruct (Rlt_dec 0 x) as [Hpos | Hnpos].
  - rewrite (Rltb_true Hpos).
    replace (0 / x) with 0 by (field; lra). apply atan_0.
  - rewrite (Rltb_false Hnpos).
    rewrite (Rltb_false (x := x) (y := 0)) by lra.
    rewrite (Rltb_false (x := 0) (y := 0)) by lra.
    reflexivity.
Qed.

(** ** Indexing *)

Lemma np_index_map {A B} (f : A -> B) (l : list A) (i : Z) :
  np_index (map f l) i = option_map f (np_index l i).
Proof.
  unfold np_index. rewrite length_map.
  destruct (0 <=? i)%Z; [apply nth_error_map | ].
  destruct (- Z.of_nat (List.length l) <=? i)%Z;
    [apply nth_error_map | reflexivity].
Qed.

Lemma np_index_length {A B} (l : list A) (l' : list B) (i : Z) :
  List.length l = List.length l' ->
  (np_index l i = None <-> np_index l' i = None).
Proof.
  intro Hlen. unfold np_index. rewrite Hlen.
  destruct (0 <=? i)%Z.
  - rewrite !nth_error_None, Hlen. reflexivity.
  - destruct (- Z.of_nat (List.length l') <=? i)%Z; [ | tauto].
    rewrite !nth_error_None, Hlen. reflexivity.
Qed.

(** ** Construction of the analyzer *)

Lemma FaceAnalyzer_init_inv lms bs im a :
  FaceAnalyzer_init lms bs im = Ok a ->
  exists raw,
    landmark_rows lms = Ok raw /\
    a = mkFaceAnalyzer lms
          (match bs with Some b => b | None => [] end)
          (index_map_or_fallback im)
          (match im with None => true | Some _ => false end)
          0.3 1e-8
          (_apply_roll_correction (index_map_or_fallback im) raw)
          (init_visibility lms)
          (_compute_scale_basis (index_map_or_fallback im)
             (_apply_roll_correction (index_map_or_fallback im) raw) 1e-8).
Proof.
  unfold FaceAnalyzer_init.
  destruct (landmark_rows lms) as [raw | e]; simpl; intro H.
  - exists raw. split; [reflexivity | congruence].
  - discriminate.
Qed.

Lemma landmark_rows_length lms raw :
  landmark_rows lms = Ok raw -> List.length raw = List.length lms.
Proof.
  revert raw. induction lms as [ | lm lms IH]; intros raw H; simpl in H.
  - injection H as <-. reflexivity.
  - destruct (landmark_row lm); simpl in H; [ | discriminate].
    destruct (landmark_rows lms) as [ps | ]; simpl in H; [ | discriminate].
    injection H as <-. simpl. f_equal. apply IH. reflexivity.
Qed.

Lemma landmark_rows_coords lms1 lms2 :
  map lm_coords lms1 = map lm_coords lms2 ->
  landmark_rows lms1 = landmark_rows lms2.
Proof.
  revert lms2.
  induction lms1 as [ | lm1 lms1 IH]; intros [ | lm2 lms2] H;
    simpl in H; try discriminate; [reflexivity | ].
  unfold lm_coords at 1 3 in H. injection H as Hx Hy Hz Ht. simpl.
  rewrite (IH _ Ht).
  unfold landmark_row. rewrite Hx, Hy, Hz. reflexivity.
Qed.

(** ** Degrees *)

Lemma degrees_0 : degrees 0 = 0.
Proof. unfold degrees. apply Rmult_0_l. Qed.

(** ** Scale basis *)

Lemma dist_nonneg (p q : P3) (m : mode) : 0 <= dist p q m.
Proof. destruct m; apply sqrt_pos. Qed.

Lemma _compute_scale_basis_cases (im : dict Z) (pts : list P3) :
  let eye :=
    indexed_dist im pts "L_eye_outer" 33%Z "R_eye_outer" 263%Z in
  let cheek := indexed_dist im pts "L_cheek" 205%Z "R_cheek" 425%Z in
  let s := _compute_scale_basis im pts 1e-8 in
  (exceeds_eps eye -> eye = Some s) /\
  (~ exceeds_eps eye -> exceeds_eps cheek -> cheek = Some s) /\
  (~ exceeds_eps eye -> ~ exceeds_eps cheek -> s = 1) /\
  0 < s.
Proof.
  intros eye cheek s. subst s. unfold _compute_scale_basis.
  fold eye cheek. unfold exceeds_eps.
  destruct eye as [e | ]; destruct cheek as [c | ]; Rltb_cases;
    repeat split; intros;
    repeat match goal with
    | H : exists _, _ |- _ => destruct H as (? & ? & ?)
    | H : Some _ = Some _ |- _ => injection H as ->
    | H : None = Some _ |- _ => discriminate H
    | H : ~ (exists _, _) |- _ =>
        solve [exfalso; apply H; eexists; split; [reflexivity | lra]]
    end;
    try reflexivity; try lra.
Qed.

(** C4: the scale basis is the 2D outer-eye distance when that is
    available and exceeds 1e-8; otherwise the 2D cheek-to-cheek distance
    when that is available and exceeds 1e-8; otherwise exactly 1.0; in
    every case it is strictly positive.  Distances are those of the
    analyzer's (roll-corrected) points. *)
Theorem scale_basis_derivation lms bs im a :
  FaceAnalyzer_init lms bs im = Ok a ->
  let eye :=
    indexed_dist (index_map a) (points a)
      "L_eye_outer" 33%Z "R_eye_outer" 263%Z in
  let cheek :=
    indexed_dist (index_map a) (points a) "L_cheek" 205%Z "R_cheek" 425%Z in
  (exceeds_eps eye -> eye = Some (scale_basis a)) /\
  (~ exceeds_eps eye -> exceeds_eps cheek -> cheek = Some (scale_basis a)) /\
  (~ exceeds_eps eye -> ~ exceeds_eps cheek -> scale_basis a = 1) /\
  0 < scale_basis a.
Proof.
  intro Hinit.
  destruct (FaceAnalyzer_init_inv _ _ _ Hinit) as (raw & _ & ->).
  cbn [index_map points scale_basis].
  apply _compute_scale_basis_cases.
Qed.

Lemma scale_basis_derivation_witness :
  exists a,
    FaceAnalyzer_init (ex_landmarks (Some 1) (Some 1)) None
      (Some ex_index_map) = Ok a /\
    let eye :=
      indexed_dist (index_map a) (points a)
        "L_eye_outer" 33%Z "R_eye_outer" 263%Z in
    let cheek :=
      indexed_dist (index_map a) (points a)
        "L_cheek" 205%Z "R_cheek" 425%Z in
    (exceeds_eps eye -> eye = Some (scale_basis a)) /\
    (~ exceeds_eps eye -> exceeds_eps cheek ->
     cheek = Some (scale_basis a)) /\
    (~ exceeds_eps eye -> ~ exceeds_eps cheek -> scale_basis a = 1) /\
    0 < scale_basis a.
Proof.
  eexists. split; [reflexivity | ].
  exact (@scale_basis_derivation (ex_landmarks (Some 1) (Some 1)) None
           (Some ex_index_map) _ eq_refl).
Defined.

(** ** Normalization and confidence *)

(** C9: two landmark inputs with identical x, y, z coordinates and
    arbitrary visibility and presence values are roll-corrected by the
    same rotation, to the same points, and get the same scale basis: the
    normalizer reads the outer-eye and cheek points straight from the point
    array, never through the confidence threshold. *)
Theorem normalization_ignores_confidence lms1 lms2 bs1 bs2 im a1 a2 :
  map lm_coords lms1 = map lm_coords lms2 ->
  FaceAnalyzer_init lms1 bs1 im = Ok a1 ->
  FaceAnalyzer_init lms2 bs2 im = Ok a2 ->
  points a1 = points a2 /\
  scale_basis a1 = scale_basis a2 /\
  exists raw,
    landmark_rows lms1 = Ok raw /\ landmark_rows lms2 = Ok raw /\
    points a1 = _apply_roll_correction (index_map a1) raw /\
    scale_basis a1 = _compute_scale_basis (index_map a1) (points a1) 1e-8.
Proof.
  intros Hc H1 H2.
  destruct (FaceAnalyzer_init_inv _ _ _ H1) as (raw1 & Hr1 & ->).
  destruct (FaceAnalyzer_init_inv _ _ _ H2) as (raw2 & Hr2 & ->).
  rewrite (landmark_rows_coords _ _ Hc), Hr2 in Hr1.
  injection Hr1 as ->.
  cbn [index_map points scale_basis].
  split; [reflexivity | ]. split; [reflexivity | ].
  exists raw1. rewrite (landmark_rows_coords _ _ Hc).
  repeat split; try reflexivity; assumption.
Qed.

Lemma normalization_ignores_confidence_witness :
  exists a1 a2,
    FaceAnalyzer_init (ex_landmarks (Some 1) (Some 1)) None
      (Some ex_index_map) = Ok a1 /\
    FaceAnalyzer_init (ex_landmarks (Some 0.1) (Some 0.2)) None
      (Some ex_index_map) = Ok a2 /\
    points a1 = points a2 /\ scale_basis a1 = scale_basis a2.
Proof.
  eexists. eexists. split; [reflexivity | ]. split; [reflexivity | ].
  pose proof (@normalization_ignores_confidence
                (ex_landmarks (Some 1) (Some 1))
                (ex_landmarks (Some 0.1) (Some 0.2))
                None None (Some ex_index_map) _ _
                eq_refl eq_refl eq_refl) as H.
  split; [exact (proj1 H) | exact (proj1 (proj2 H))].
Defined.

(** ** Point lookup *)

Lemma np_index_beyond {A} (l : list A) (i : Z) :
  (Z.of_nat (List.length l) <= i)%Z -> np_index l i = None.
Proof.
  intro H. unfold np_index.
  destruct (0 <=? i)%Z eqn:E; [ | lia].
  apply nth_error_None. lia.
Qed.

Lemma _get_point_all_zero (a : FaceAnalyzer) (name : string) :
  all_zero (visibility a) = true ->
  _get_point a name = resolve_point a name.
Proof.
  intro Hz. unfold _get_point, resolve_point. rewrite Hz. simpl.
  destruct (dict_get (index_map a) name) as [idx | ]; [ | reflexivity].
  destruct (Z.of_nat (List.length (points a)) <=? idx)%Z eqn:E;
    [ | reflexivity].
  symmetry. apply np_index_beyond. lia.
Qed.

Lemma np_index_In {A} (l : list A) (i : Z) (x : A) :
  np_index l i = Some x -> In x l.
Proof.
  unfold np_index.
  destruct (0 <=? i)%Z; [apply nth_error_In | ].
  destruct (- Z.of_nat (List.length l) <=? i)%Z;
    [apply nth_error_In | discriminate].
Qed.

Lemma _get_point_confident (a : FaceAnalyzer) (name : string) :
  List.length (visibility a) = List.length (points a) ->
  (forall v, In v (visibility a) -> ~ v < visibility_threshold a) ->
  _get_point a name = resolve_point a name.
Proof.
  intros Hlen Hconf. unfold _get_point, resolve_point.
  destruct (dict_get (index_map a) name) as [idx | ]; [ | reflexivity].
  destruct (Z.of_nat (List.length (points a)) <=? idx)%Z eqn:E.
  { symmetry. apply np_index_beyond. lia. }
  destruct (negb (all_zero (visibility a))); [ | reflexivity].
  destruct (np_index (visibility a) idx) as [v | ] eqn:Ev.
  - rewrite (Rltb_false (Hconf v (np_index_In _ _ Ev))). reflexivity.
  - symmetry. apply (np_index_length _ _ idx Hlen). assumption.
Qed.

(** ** The analysis depends on the analyzer through its lookups *)

Section Extensionality.

Variable np_polyfit : list R -> list R -> nat -> result (list R).
Variables a b : FaceAnalyzer.
Hypothesis Hget : forall name, _get_point a name = _get_point b name.
Hypothesis Hscale : scale_basis a = scale_basis b.
Hypothesis Heps : eps a = eps b.

Ltac ext_analyzer :=
  cbv beta iota zeta delta [fold_left];
  rewrite ?Hget, ?Hscale, ?Heps; reflexivity.

Lemma _compute_glabella_ext : _compute_glabella a = _compute_glabella b.
Proof. unfold _compute_glabella. ext_analyzer. Qed.

Lemma analyze_eyes_ext : analyze_eyes a = analyze_eyes b.
Proof. unfold analyze_eyes, eyes_side, brow_side. ext_analyzer. Qed.

Lemma analyze_nose_ext : analyze_nose a = analyze_nose b.
Proof. unfold analyze_nose. ext_analyzer. Qed.

Lemma analyze_mouth_ext :
  analyze_mouth np_polyfit a = analyze_mouth np_polyfit b.
Proof. unfold analyze_mouth. ext_analyzer. Qed.

Lemma analyze_structure_ext : analyze_structure a = analyze_structure b.
Proof.
  unfold analyze_structure. rewrite _compute_glabella_ext. ext_analyzer.
Qed.

Lemma analyze_symmetry_ext : analyze_symmetry a = analyze_symmetry b.
Proof.
  unfold analyze_symmetry, symmetry_pairs, symmetry_pair. ext_analyzer.
Qed.

Lemma analyze_profile_ext : analyze_profile a = analyze_profile b.
Proof. unfold analyze_profile. ext_analyzer. Qed.

Lemma analyze_golden_diagnostics_ext (structure : dict pyval) :
  analyze_golden_diagnostics a structure
  = analyze_golden_diagnostics b structure.
Proof. unfold analyze_golden_diagnostics. ext_analyzer. Qed.

Lemma _estimate_pose_ext : _estimate_pose a = _estimate_pose b.
Proof. unfold _estimate_pose. ext_analyzer. Qed.

Hypothesis Hblend : blendshapes a = blendshapes b.
Hypothesis Hfallback : fallback_indices_used a = fallback_indices_used b.
Hypothesis Hthreshold : visibility_threshold a = visibility_threshold b.

Lemma analyze_ext : analyze np_polyfit a = analyze np_polyfit b.
Proof.
  unfold analyze, analyze_blendshapes.
  rewrite analyze_eyes_ext, analyze_nose_ext, analyze_mouth_ext,
    analyze_structure_ext, analyze_symmetry_ext, analyze_profile_ext,
    analyze_golden_diagnostics_ext, _estimate_pose_ext,
    Hblend, Hfallback, Hthreshold, Hscale.
  reflexivity.
Qed.

End Extensionality.

(** ** Confidence values chosen at construction *)

Lemma Reqb_1_0 : Reqb 1 0 = false.
Proof. unfold Reqb. destruct (Req_dec_T 1 0); [lra | reflexivity]. Qed.

Lemma init_visibility_zero lms :
  (forall lm, In lm lms -> lm_visibility lm = Some 0) ->
  init_visibility lms
  = map (fun lm => match lm_presence lm with Some v => v | None => 1 end) lms.
Proof.
  intro Hz. unfold init_visibility.
  replace (all_zero _) with true; [reflexivity | ].
  symmetry. unfold all_zero. apply forallb_forall.
  intros v Hv. apply in_map_iff in Hv. destruct Hv as (lm & <- & Hlm).
  rewrite (Hz lm Hlm). apply Reqb_refl.
Qed.

Lemma init_visibility_from_presence lms :
  init_visibility (map visibility_from_presence lms)
  = map (fun lm => match lm_presence lm with Some v => v | None => 1 end) lms.
Proof.
  unfold init_visibility. rewrite !map_map. simpl.
  destruct (all_zero _); reflexivity.
Qed.

Lemma init_visibility_full lms :
  init_visibility (map with_full_visibility lms) = map (fun _ => 1) lms.
Proof.
  unfold init_visibility. rewrite !map_map. simpl.
  destruct lms as [ | lm lms]; [reflexivity | ].
  simpl. rewrite Reqb_1_0. reflexivity.
Qed.

Lemma length_apply_roll_correction im pts :
  List.length (_apply_roll_correction im pts) = List.length pts.
Proof.
  unfold _apply_roll_correction.
  destruct (np_index pts _); [ | reflexivity].
  destruct (np_index pts _); [ | reflexivity].
  apply length_map.
Qed.

Lemma FaceAnalyzer_init_raise lms bs im e :
  FaceAnalyzer_init lms bs im = Raise e -> landmark_rows lms = Raise e.
Proof.
  unfold FaceAnalyzer_init.
  destruct (landmark_rows lms); simpl; intro H; [discriminate | ].
  injection H as ->. reflexivity.
Qed.

Section EngineProperties.

Variable np_polyfit : list R -> list R -> nat -> result (list R).

(** Two inputs with the same coordinates whose analyzers agree on every
    point lookup get the same result. *)
Lemma analyze_face_ratios_congr lms1 lms2 bs im :
  map lm_coords lms1 = map lm_coords lms2 ->
  (forall a1 a2,
     FaceAnalyzer_init lms1 bs im = Ok a1 ->
     FaceAnalyzer_init lms2 bs im = Ok a2 ->
     forall name, _get_point a1 name = _get_point a2 name) ->
  analyze_face_ratios np_polyfit lms1 bs im
  = analyze_face_ratios np_polyfit lms2 bs im.
Proof.
  intros Hc Hget. pose proof (landmark_rows_coords _ _ Hc) as Hrows.
  unfold analyze_face_ratios.
  destruct (FaceAnalyzer_init lms1 bs im) as [a1 | e1] eqn:E1;
    destruct (FaceAnalyzer_init lms2 bs im) as [a2 | e2] eqn:E2; simpl.
  - specialize (Hget a1 a2 eq_refl eq_refl).
    destruct (FaceAnalyzer_init_inv _ _ _ E1) as (raw1 & Hr1 & ->).
    destruct (FaceAnalyzer_init_inv _ _ _ E2) as (raw2 & Hr2 & ->).
    rewrite Hrows, Hr2 in Hr1. injection Hr1 as ->.
    erewrite analyze_ext; [reflexivity | exact Hget | reflexivity .. ].
  - destruct (FaceAnalyzer_init_inv _ _ _ E1) as (raw1 & Hr1 & _).
    apply FaceAnalyzer_init_raise in E2. congruence.
  - destruct (FaceAnalyzer_init_inv _ _ _ E2) as (raw2 & Hr2 & _).
    apply FaceAnalyzer_init_raise in E1. congruence.
  - apply FaceAnalyzer_init_raise in E1, E2.
    rewrite Hrows, E2 in E1. injection E1 as ->. reflexivity.
Qed.

(** C3: when every landmark's visibility is exactly 0.0, the analyzer
    stores the presence values as its confidence values, once, at
    construction; every point lookup then applies the 0.3 threshold to the
    landmark's presence (a point whose presence is below 0.3 is dropped,
    unless all presences are zero too; a point whose presence is at least
    0.3 is returned); and the analysis result equals the result for the
    same input with each visibility replaced by the corresponding
    presence. *)
Theorem presence_substituted_for_zero_visibility lms bs im :
  (forall lm, In lm lms -> lm_visibility lm = Some 0) ->
  (forall a, FaceAnalyzer_init lms bs im = Ok a ->
     visibility a
     = map (fun lm => match lm_presence lm with Some v => v | None => 1 end)
           lms) /\
  (forall a name idx lm,
     FaceAnalyzer_init lms bs im = Ok a ->
     dict_get (index_map a) name = Some idx ->
     (0 <= idx)%Z ->
     nth_error lms (Z.to_nat idx) = Some lm ->
     (presence_or_default lm < 0.3 ->
      all_zero (map presence_or_default lms) = false ->
      _get_point a name = None) /\
     (0.3 <= presence_or_default lm ->
      _get_point a name = np_index (points a) idx)) /\
  analyze_face_ratios np_polyfit lms bs im
  = analyze_face_ratios np_polyfit (map visibility_from_presence lms) bs im.
Proof.
  intro Hz. split; [ | split].
  - intros a Ha.
    destruct (FaceAnalyzer_init_inv _ _ _ Ha) as (raw & _ & ->).
    cbn [visibility]. apply init_visibility_zero. assumption.
  - intros a name idx lm Ha Hidx Hnonneg Hnth.
    destruct (FaceAnalyzer_init_inv _ _ _ Ha) as (raw & Hraw & ->).
    cbn [index_map] in Hidx.
    unfold _get_point.
    cbn [index_map points visibility visibility_threshold].
    rewrite Hidx, (init_visibility_zero _ Hz).
    change (map (fun lm0 => match lm_presence lm0 with
                            | Some v => v
                            | None => 1
                            end) lms)
      with (map presence_or_default lms).
    assert (Hlt : (Z.to_nat idx < List.length lms)%nat)
      by (apply nth_error_Some; congruence).
    rewrite length_apply_roll_correction, (landmark_rows_length _ Hraw).
    replace (Z.of_nat (List.length lms) <=? idx)%Z with false
      by (symmetry; apply Z.leb_gt; lia).
    assert (Hconf : np_index (map presence_or_default lms) idx
                    = Some (presence_or_default lm)).
    { unfold np_index.
      replace (0 <=? idx)%Z with true by (symmetry; apply Z.leb_le; lia).
      rewrite nth_error_map, Hnth. reflexivity. }
    rewrite Hconf. split.
    + intros Hlow Hnz. rewrite Hnz. cbn [negb].
      rewrite (Rltb_true Hlow). reflexivity.
    + intro Hhigh.
      destruct (all_zero (map presence_or_default lms)); cbn [negb];
        [reflexivity | ].
      rewrite Rltb_false by lra. reflexivity.
  - apply analyze_face_ratios_congr.
    + rewrite map_map. reflexivity.
    + intros a1 a2 H1 H2 name.
      destruct (FaceAnalyzer_init_inv _ _ _ H1) as (raw1 & Hr1 & ->).
      destruct (FaceAnalyzer_init_inv _ _ _ H2) as (raw2 & Hr2 & ->).
      rewrite (landmark_rows_coords lms (map visibility_from_presence lms)),
        Hr2 in Hr1 by (rewrite map_map; reflexivity).
      injection Hr1 as ->.
      unfold _get_point. cbn [index_map points visibility visibility_threshold].
      rewrite init_visibility_from_presence, (init_visibility_zero _ Hz).
      reflexivity.
Qed.

(** C10: when every stored confidence value is 0.0 (visibility all zero
    and the substituted presence all zero too), point lookup skips the
    threshold and returns the point of every name that resolves to an
    index within bounds; the analysis result is then the one obtained
    with full visibility on every landmark. *)
Theorem zero_confidence_skips_threshold lms bs im :
  all_zero (init_visibility lms) = true ->
  (forall a, FaceAnalyzer_init lms bs im = Ok a ->
     forall name, _get_point a name = resolve_point a name) /\
  analyze_face_ratios np_polyfit lms bs im
  = analyze_face_ratios np_polyfit (map with_full_visibility lms) bs im.
Proof.
  intro Hz.
  assert (Hzero : forall a, FaceAnalyzer_init lms bs im = Ok a ->
                    forall name, _get_point a name = resolve_point a name).
  { intros a Ha name.
    destruct (FaceAnalyzer_init_inv _ _ _ Ha) as (raw & _ & ->).
    apply _get_point_all_zero. exact Hz. }
  split; [exact Hzero | ].
  apply analyze_face_ratios_congr.
  - rewrite map_map. reflexivity.
  - intros a1 a2 H1 H2 name.
    rewrite (Hzero a1 H1 name).
    destruct (FaceAnalyzer_init_inv _ _ _ H1) as (raw1 & Hr1 & ->).
    destruct (FaceAnalyzer_init_inv _ _ _ H2) as (raw2 & Hr2 & ->).
    rewrite (landmark_rows_coords lms (map with_full_visibility lms)),
      Hr2 in Hr1 by (rewrite map_map; reflexivity).
    injection Hr1 as ->.
    rewrite _get_point_confident; [reflexivity | | ];
      cbn [visibility points visibility_threshold];
      rewrite init_visibility_full.
    + rewrite length_apply_roll_correction, length_map.
      rewrite (landmark_rows_length _ Hr2), length_map. reflexivity.
    + intros v Hv. apply in_map_iff in Hv. destruct Hv as (_ & <- & _). lra.
Qed.

End EngineProperties.

Lemma Reqb_false (x y : R) : x <> y -> Reqb x y = false.
Proof.
  intro H. unfold Reqb. destruct (Req_dec_T x y); [contradiction | reflexivity].
Qed.

Lemma low_presence_not_all_zero :
  all_zero (map presence_or_default low_presence_landmarks) = false.
Proof.
  unfold all_zero, presence_or_default. simpl.
  rewrite Reqb_false by (intro H; lra). reflexivity.
Qed.

Lemma presence_substituted_for_zero_visibility_witness :
  exists a,
    FaceAnalyzer_init low_presence_landmarks None (Some ex_index_map) = Ok a /\
    _get_point a "L_eye_inner" = None /\
    _get_point a "L_eye_outer" = np_index (points a) 0%Z /\
    analyze_face_ratios polyfit_parabola low_presence_landmarks None
      (Some ex_index_map)
    = analyze_face_ratios polyfit_parabola
        (map visibility_from_presence low_presence_landmarks)
        None (Some ex_index_map).
Proof.
  eexists. split; [reflexivity | ].
  assert (Hz : forall lm, In lm low_presence_landmarks ->
                          lm_visibility lm = Some 0).
  { intros lm Hlm. simpl in Hlm.
    destruct Hlm as [<- | [<- | [<- | []]]]; reflexivity. }
  destruct (@presence_substituted_for_zero_visibility polyfit_parabola
              low_presence_landmarks None (Some ex_index_map) Hz)
    as (_ & Hthr & Heq).
  split; [ | split; [ | exact Heq]].
  - apply (proj1 (Hthr _ "L_eye_inner" 1%Z
                    (mkLandmark (Some 0.4) (Some 0.5) (Some 0) (Some 0)
                       (Some 0.1))
                    eq_refl eq_refl (Z.le_0_1) eq_refl)).
    + unfold presence_or_default. cbn [lm_presence]. lra.
    + exact low_presence_not_all_zero.
  - apply (proj2 (Hthr _ "L_eye_outer" 0%Z
                    (mkLandmark (Some 0.3) (Some 0.4) (Some 0) (Some 0)
                       (Some 0.9))
                    eq_refl eq_refl (Z.le_refl 0) eq_refl)).
    unfold presence_or_default. cbn [lm_presence]. lra.
Defined.

Lemma ex_landmarks_all_zero :
  all_zero (init_visibility (ex_landmarks (Some 0) (Some 0))) = true.
Proof.
  unfold init_visibility, ex_landmarks, ex_points. simpl.
  rewrite !Reqb_refl. simpl. rewrite !Reqb_refl. reflexivity.
Qed.

Lemma zero_confidence_skips_threshold_witness :
  analyze_face_ratios polyfit_parabola (ex_landmarks (Some 0) (Some 0)) None
    (Some ex_index_map)
  = analyze_face_ratios polyfit_parabola
      (map with_full_visibility (ex_landmarks (Some 0) (Some 0)))
      None (Some ex_index_map).
Proof.
  apply (@zero_confidence_skips_threshold polyfit_parabola
           (ex_landmarks (Some 0) (Some 0)) None (Some ex_index_map)).
  exact ex_landmarks_all_zero.
Defined.

(** ** Facial thirds and their evenness *)

Lemma safe_ratio_some (n d : R) :
  1e-8 < d -> safe_ratio n d 1e-8 = Some (n / d).
Proof.
  intro H. unfold safe_ratio. rewrite Rltb_false; [reflexivity | ].
  rewrite Rabs_right by lra. lra.
Qed.

Lemma safe_ratio_none (n d : R) :
  Rabs d < 1e-8 -> safe_ratio n d 1e-8 = None.
Proof. intro H. unfold safe_ratio. rewrite (Rltb_true H). reflexivity. Qed.

(** The two thirds entries of the structure mapping come together, and
    both carry a number. *)
Lemma analyze_structure_thirds (a : FaceAnalyzer) :
  eps a = 1e-8 ->
  let s := analyze_structure a in
  (dict_get s "upper_to_middle_third" = None /\
   dict_get s "lower_to_middle_third" = None) \/
  (exists u l,
     dict_get s "upper_to_middle_third"
     = Some (create_metric (PFloat u) "2D"
               ["glabella"; "nasion"; "subnasale"] true 1) /\
     dict_get s "lower_to_middle_third"
     = Some (create_metric (PFloat l) "2D"
               ["subnasale"; "chin_tip"; "nasion"] true 1)).
Proof.
  intros He s. subst s. unfold analyze_structure. rewrite He.
  generalize (_compute_glabella a) (_get_point a "chin_tip")
    (_get_point a "nasion") (_get_point a "subnasale")
    (_get_point a "L_cheek") (_get_point a "R_cheek")
    (_get_point a "gonion_L") (_get_point a "gonion_R")
    (_get_point a "menton").
  intros g c n s lc rc gl gr m.
  destruct g, c, n, s, lc, rc, gl, gr, m; cbv beta iota zeta.
  all: try rewrite (Rltb_false (x := 1e-8) (y := 0)) by lra.
  all: try solve [left; split; reflexivity].
  all: try match goal with
  | |- context [if Rltb 1e-8 ?x then _ else _] =>
      let H := fresh "H" in
      destruct (Rlt_dec 1e-8 x) as [H | H];
      [ rewrite (Rltb_true H), !(@safe_ratio_some _ _ H)
      | rewrite (Rltb_false H) ]
  end.
  all: try match goal with
  | |- context [match safe_ratio ?n ?d ?e with _ => _ end] =>
      destruct (safe_ratio n d e)
  end.
  all: solve [ left; split; reflexivity
             | right; eexists; eexists; split; reflexivity ].
Qed.

Lemma golden_thirds_absent (a : FaceAnalyzer) (s : dict pyval) :
  dict_get s "upper_to_middle_third" = None ->
  dict_get s "lower_to_middle_third" = None ->
  exists g, analyze_golden_diagnostics a s = Ok g /\
            dict_get g "thirds_evenness" = None.
Proof.
  intros Hu Hl. unfold analyze_golden_diagnostics. rewrite Hu, Hl.
  cbv beta iota zeta delta [bind].
  eexists. split; [reflexivity | ].
  destruct (_get_point a "L_eye_outer"), (_get_point a "L_eye_inner"),
    (_get_point a "R_eye_inner"), (_get_point a "R_eye_outer"); reflexivity.
Qed.

Lemma golden_thirds_present (a : FaceAnalyzer) (s : dict pyval)
    (u l : R) (spu spl : list string) :
  dict_get s "upper_to_middle_third"
    = Some (create_metric (PFloat u) "2D" spu true 1) ->
  dict_get s "lower_to_middle_third"
    = Some (create_metric (PFloat l) "2D" spl true 1) ->
  exists g, analyze_golden_diagnostics a s = Ok g /\
            dict_get g "thirds_evenness"
            = Some (create_metric (PFloat (1 - np_std [u; l])) "2D" []
                      true 0.7).
Proof.
  intros Hu Hl. unfold analyze_golden_diagnostics. rewrite Hu, Hl.
  cbv beta iota zeta delta [bind metric_get_value create_metric].
  eexists. split; [reflexivity | ].
  destruct (_get_point a "L_eye_outer"), (_get_point a "L_eye_inner"),
    (_get_point a "R_eye_inner"), (_get_point a "R_eye_outer"); reflexivity.
Qed.

Lemma FaceAnalyzer_init_eps lms bs im a :
  FaceAnalyzer_init lms bs im = Ok a -> eps a = 1e-8.
Proof.
  intro H. destruct (FaceAnalyzer_init_inv _ _ _ H) as (raw & _ & ->).
  reflexivity.
Qed.

Lemma sq_Rabs (x : R) : sq (Rabs x) = x * x.
Proof.
  unfold sq. change (Rabs x * Rabs x) with (Rsqr (Rabs x)).
  rewrite <- Rsqr_abs. reflexivity.
Qed.

(** The population standard deviation of two numbers is half their
    distance. *)
Lemma np_std_pair (u l : R) : np_std [u; l] = Rabs (u - l) / 2.
Proof.
  unfold np_std, np_mean. simpl.
  replace ((sq (Rabs (u - (u + (l + 0)) / (1 + 1)))
            + (sq (Rabs (l - (u + (l + 0)) / (1 + 1))) + 0)) / (1 + 1))
    with (((u - l) / 2)²).
  - rewrite sqrt_Rsqr_abs. unfold Rdiv. rewrite Rabs_mult.
    rewrite (Rabs_right (/ 2)) by lra. reflexivity.
  - rewrite !sq_Rabs. unfold Rsqr. field.
Qed.

(** C6: in one analysis pass, [golden_diagnostics] has a
    [thirds_evenness] entry only when the structure mapping has both
    [upper_to_middle_third] and [lower_to_middle_third]; its value is then
    1 minus the standard deviation of those two ratios.  Otherwise neither
    thirds entry exists and [thirds_evenness] is absent. *)
Theorem thirds_evenness_from_structure lms bs im a :
  FaceAnalyzer_init lms bs im = Ok a ->
  let structure := analyze_structure a in
  exists golden,
    analyze_golden_diagnostics a structure = Ok golden /\
    ((dict_get structure "upper_to_middle_third" = None /\
      dict_get structure "lower_to_middle_third" = None /\
      dict_get golden "thirds_evenness" = None) \/
     (exists mu ml u l,
        dict_get structure "upper_to_middle_third" = Some mu /\
        dict_get structure "lower_to_middle_third" = Some ml /\
        py_path mu ["value"] = Some (PFloat u) /\
        py_path ml ["value"] = Some (PFloat l) /\
        dict_get golden "thirds_evenness"
        = Some (create_metric (PFloat (1 - np_std [u; l])) "2D" []
                  true 0.7))).
Proof.
  intros Hinit structure. subst structure.
  pose proof (FaceAnalyzer_init_eps _ _ _ Hinit) as He.
  destruct (analyze_structure_thirds a He) as [[Hu Hl] | (u & l & Hu & Hl)].
  - destruct (golden_thirds_absent a _ Hu Hl) as (g & Hg & Ht).
    exists g. split; [exact Hg | ]. left. auto.
  - destruct (golden_thirds_present a _ Hu Hl) as (g & Hg & Ht).
    exists g. split; [exact Hg | ]. right.
    eexists. eexists. exists u, l.
    split; [exact Hu | ]. split; [exact Hl | ].
    split; [reflexivity | ]. split; [reflexivity | exact Ht].
Qed.

(** ** Dict keys *)

Lemma dict_get_in_keys {V} (d : dict V) (k : string) (v : V) :
  dict_get d k = Some v -> In k (dict_keys d).
Proof.
  induction d as [ | [k' v'] d IH]; simpl; [discriminate | ].
  destruct (String.eqb k' k) eqn:E.
  - intros _. left. apply String.eqb_eq. assumption.
  - intro H. right. apply IH. assumption.
Qed.

(** ** An analyzer over an empty point array *)

Lemma np_index_nil {A} (i : Z) : np_index (@nil A) i = None.
Proof.
  unfold np_index.
  destruct (0 <=? i)%Z; [apply nth_error_nil | ].
  destruct (- Z.of_nat (List.length (@nil A)) <=? i)%Z;
    [apply nth_error_nil | reflexivity].
Qed.

Lemma _get_point_no_points (a : FaceAnalyzer) (name : string) :
  points a = [] -> _get_point a name = None.
Proof.
  intro Hp. unfold _get_point. rewrite Hp.
  destruct (dict_get (index_map a) name) as [idx | ]; [ | reflexivity].
  destruct (_ <=? idx)%Z; [reflexivity | ].
  rewrite np_index_nil.
  destruct (negb _); [ | reflexivity].
  destruct (np_index (visibility a) idx); [ | reflexivity].
  destruct (Rltb _ _); reflexivity.
Qed.

Lemma _apply_roll_correction_nil (im : dict Z) :
  _apply_roll_correction im [] = [].
Proof. unfold _apply_roll_correction. rewrite np_index_nil. reflexivity. Qed.

Lemma _compute_scale_basis_nil (im : dict Z) (e : R) :
  _compute_scale_basis im [] e = 1.
Proof.
  unfold _compute_scale_basis, indexed_dist. rewrite !np_index_nil.
  reflexivity.
Qed.

Section NoPoints.

Variable np_polyfit : list R -> list R -> nat -> result (list R).
Variable a : FaceAnalyzer.
Hypothesis Hnone : forall name, _get_point a name = None.

Ltac no_points :=
  cbv beta iota zeta delta [fold_left];
  rewrite ?Hnone; reflexivity.

Lemma analyze_eyes_no_points : analyze_eyes a = [].
Proof. unfold analyze_eyes, eyes_side, brow_side. no_points. Qed.

Lemma analyze_nose_no_points : analyze_nose a = [].
Proof. unfold analyze_nose. no_points. Qed.

Lemma analyze_mouth_no_points : analyze_mouth np_polyfit a = [].
Proof. unfold analyze_mouth. no_points. Qed.

Lemma analyze_structure_no_points : analyze_structure a = [].
Proof. unfold analyze_structure, _compute_glabella. no_points. Qed.

Lemma analyze_symmetry_no_points :
  analyze_symmetry a = [("bilateral_feature_deltas", PDict [])].
Proof. unfold analyze_symmetry, symmetry_pairs, symmetry_pair. no_points. Qed.

Lemma analyze_profile_no_points : analyze_profile a = [].
Proof. unfold analyze_profile. no_points. Qed.

Lemma analyze_golden_diagnostics_no_points :
  analyze_golden_diagnostics a [] = Ok [("phi_deviations", PDict [])].
Proof. unfold analyze_golden_diagnostics. no_points. Qed.

Lemma _estimate_pose_no_points : _estimate_pose a = [].
Proof. unfold _estimate_pose. no_points. Qed.

Lemma analyze_no_points :
  analyze np_polyfit a
  = Ok (PDict
          [ ("normalization",
             PDict [ ("scale_basis", PFloat (scale_basis a));
                     ("fallback_indices_used",
                      PBool (fallback_indices_used a));
                     ("visibility_threshold",
                      PFloat (visibility_threshold a)) ]);
            ("pose_estimation", PDict []);
            ("eyes", PDict []);
            ("nose", PDict []);
            ("mouth", PDict []);
            ("structure", PDict []);
            ("symmetry", PDict [("bilateral_feature_deltas", PDict [])]);
            ("profile", PDict []);
            ("golden_diagnostics", PDict [("phi_deviations", PDict [])]);
            ("blendshape_summary", PDict (analyze_blendshapes a)) ]).
Proof.
  unfold analyze.
  rewrite analyze_eyes_no_points, analyze_nose_no_points,
    analyze_mouth_no_points, analyze_structure_no_points,
    analyze_symmetry_no_points, analyze_profile_no_points,
    analyze_golden_diagnostics_no_points, _estimate_pose_no_points.
  reflexivity.
Qed.

End NoPoints.

Section ResultShape.

Variable np_polyfit : list R -> list R -> nat -> result (list R).

Lemma analyze_ok (a : FaceAnalyzer) :
  eps a = 1e-8 ->
  exists golden,
    analyze_golden_diagnostics a (analyze_structure a) = Ok golden /\
    analyze np_polyfit a
    = Ok (PDict
            [ ("normalization",
               PDict [ ("scale_basis", PFloat (scale_basis a));
                       ("fallback_indices_used",
                        PBool (fallback_indices_used a));
                       ("visibility_threshold",
                        PFloat (visibility_threshold a)) ]);
              ("pose_estimation", PDict (_estimate_pose a));
              ("eyes", PDict (analyze_eyes a));
              ("nose", PDict (analyze_nose a));
              ("mouth", PDict (analyze_mouth np_polyfit a));
              ("structure", PDict (analyze_structure a));
              ("symmetry", PDict (analyze_symmetry a));
              ("profile", PDict (analyze_profile a));
              ("golden_diagnostics", PDict golden);
              ("blendshape_summary", PDict (analyze_blendshapes a)) ]).
Proof.
  intro He.
  assert (Hg : exists g,
             analyze_golden_diagnostics a (analyze_structure a) = Ok g).
  { destruct (analyze_structure_thirds a He)
      as [[Hu Hl] | (u & l & Hu & Hl)].
    - destruct (golden_thirds_absent a _ Hu Hl) as (g & Hg & _). eauto.
    - destruct (golden_thirds_present a _ Hu Hl) as (g & Hg & _). eauto. }
  destruct Hg as (g & Hg). exists g. split; [exact Hg | ].
  unfold analyze. rewrite Hg. reflexivity.
Qed.

Lemma is_analysis_result_not_envelope (v : pyval) :
  is_analysis_result v -> ~ is_error_envelope v.
Proof.
  intros (d & -> & Hkeys & _ & Herr) (d' & msg & Heq & Herr' & _).
  injection Heq as <-. congruence.
Qed.

Lemma failure_envelope_is_envelope (e : exn) :
  is_error_envelope (failure_envelope e).
Proof.
  unfold is_error_envelope, failure_envelope.
  eexists. eexists. split; [reflexivity | ].
  split; [reflexivity | ]. split; [reflexivity | ].
  intros k Hk. simpl in Hk.
  repeat (destruct Hk as [<- | Hk]; [reflexivity | ]). contradiction.
Qed.

(** C1: for every input, [analyze_face_ratios] returns either a
    complete analysis result, with exactly the fixed top-level keys and no
    error field, or an error envelope with a string error field, status
    "failed" and none of the result keys; never both. *)
Theorem analyze_face_ratios_shape lms bs im :
  let r := analyze_face_ratios np_polyfit lms bs im in
  (is_analysis_result r /\ ~ is_error_envelope r) \/
  (is_error_envelope r /\ ~ is_analysis_result r).
Proof.
  intro r. subst r. unfold analyze_face_ratios.
  destruct (FaceAnalyzer_init lms bs im) as [a | e] eqn:Hinit; simpl.
  - left.
    destruct (@analyze_ok a (FaceAnalyzer_init_eps _ _ _ Hinit))
      as (g & _ & ->).
    assert (Hres : is_analysis_result
      (PDict
         [ ("normalization",
            PDict [ ("scale_basis", PFloat (scale_basis a));
                    ("fallback_indices_used",
                     PBool (fallback_indices_used a));
                    ("visibility_threshold",
                     PFloat (visibility_threshold a)) ]);
           ("pose_estimation", PDict (_estimate_pose a));
           ("eyes", PDict (analyze_eyes a));
           ("nose", PDict (analyze_nose a));
           ("mouth", PDict (analyze_mouth np_polyfit a));
           ("structure", PDict (analyze_structure a));
           ("symmetry", PDict (analyze_symmetry a));
           ("profile", PDict (analyze_profile a));
           ("golden_diagnostics", PDict g);
           ("blendshape_summary", PDict (analyze_blendshapes a)) ])).
    { eexists. split; [reflexivity | ]. split; [reflexivity | ].
      split; [ | reflexivity].
      repeat (constructor; [eexists; reflexivity | ]). constructor. }
    split; [exact Hres | exact (@is_analysis_result_not_envelope _ Hres)].
  - right.
    pose proof (failure_envelope_is_envelope e) as Henv.
    split; [exact Henv | ].
    intro Hres. exact (@is_analysis_result_not_envelope _ Hres Henv).
Qed.

(** The result for an empty landmark sequence. *)
Lemma analyze_face_ratios_empty bs im :
  exists summary,
    analyze_face_ratios np_polyfit [] bs im
    = PDict
        [ ("normalization",
           PDict [ ("scale_basis", PFloat 1);
                   ("fallback_indices_used",
                    PBool (match im with None => true | Some _ => false end));
                   ("visibility_threshold", PFloat 0.3) ]);
          ("pose_estimation", PDict []);
          ("eyes", PDict []);
          ("nose", PDict []);
          ("mouth", PDict []);
          ("structure", PDict []);
          ("symmetry", PDict [("bilateral_feature_deltas", PDict [])]);
          ("profile", PDict []);
          ("golden_diagnostics", PDict [("phi_deviations", PDict [])]);
          ("blendshape_summary", PDict summary) ].
Proof.
  unfold analyze_face_ratios, FaceAnalyzer_init.
  cbn [landmark_rows bind].
  rewrite _apply_roll_correction_nil, _compute_scale_basis_nil.
  rewrite analyze_no_points
    by (intro name; apply _get_point_no_points; reflexivity).
  eexists. reflexivity.
Qed.

End ResultShape.

(** C7: for an empty landmark sequence the engine does not fail: it
    returns a normal analysis result, not the error envelope, with scale
    basis 1.0 and empty region mappings. *)
Theorem empty_landmarks_give_empty_result
    (np_polyfit : list R -> list R -> nat -> result (list R)) bs im :
  let r := analyze_face_ratios np_polyfit [] bs im in
  is_analysis_result r /\
  ~ is_error_envelope r /\
  py_path r ["normalization"; "scale_basis"] = Some (PFloat 1) /\
  py_path r ["pose_estimation"] = Some (PDict []) /\
  py_path r ["eyes"] = Some (PDict []) /\
  py_path r ["nose"] = Some (PDict []) /\
  py_path r ["mouth"] = Some (PDict []) /\
  py_path r ["structure"] = Some (PDict []) /\
  py_path r ["symmetry"]
    = Some (PDict [("bilateral_feature_deltas", PDict [])]) /\
  py_path r ["profile"] = Some (PDict []) /\
  py_path r ["golden_diagnostics"]
    = Some (PDict [("phi_deviations", PDict [])]).
Proof.
  intro r. subst r.
  destruct (analyze_face_ratios_empty np_polyfit bs im) as (summary & ->).
  match goal with |- is_analysis_result ?v /\ _ =>
    assert (Hres : is_analysis_result v)
  end.
  { eexists. split; [reflexivity | ]. split; [reflexivity | ].
    split; [ | reflexivity].
    repeat (constructor; [eexists; reflexivity | ]). constructor. }
  split; [exact Hres | ].
  split; [exact (@is_analysis_result_not_envelope _ Hres) | ].
  repeat split; reflexivity.
Qed.

(** The result for the empty landmark sequence (default index map, no
    blendshapes) is not an error envelope. *)
Lemma empty_landmarks_not_envelope :
  ~ is_error_envelope (analyze_face_ratios polyfit_parabola [] None None).
Proof.
  destruct (analyze_face_ratios_empty polyfit_parabola None None)
    as (summary & ->).
  apply is_analysis_result_not_envelope.
  eexists. split; [reflexivity | ]. split; [reflexivity | ].
  split; [ | reflexivity].
  repeat (constructor; [eexists; reflexivity | ]). constructor.
Qed.

(** ** Evaluating the engine on concrete inputs *)

Lemma py_path_dict (d : dict pyval) (k : string) (p : list string)
    (v : pyval) :
  dict_get d k = Some v -> py_path (PDict d) (k :: p) = py_path v p.
Proof. intro H. simpl. rewrite H. reflexivity. Qed.

Lemma all_ones_confident (n : nat) (v : R) :
  In v (repeat 1 n) -> ~ v < 0.3.
Proof. intro H. apply repeat_spec in H. subst v. lra. Qed.

(** ** The alar-width ratio over a degenerate inner-eye distance *)

Lemma analyze_nose_alar_null (a : FaceAnalyzer) (pl pr el er : P3) :
  _get_point a "alare_L" = Some pl ->
  _get_point a "alare_R" = Some pr ->
  _get_point a "L_eye_inner" = Some el ->
  _get_point a "R_eye_inner" = Some er ->
  dist el er D2 < 1e-8 ->
  dict_get (analyze_nose a) "alar_width_over_inter_eye"
  = Some (create_metric PNone "2D"
            ["alare_L"; "alare_R"; "L_eye_inner"; "R_eye_inner"] true 1).
Proof.
  intros Hl Hr Hel Her Hd. unfold analyze_nose.
  rewrite Hl, Hr, Hel, Her.
  rewrite (@safe_ratio_none (dist pl pr D2) (dist el er D2))
    by (rewrite Rabs_right; [exact Hd | apply Rle_ge, dist_nonneg]).
  generalize (_get_point a "nose_tip") (_get_point a "subnasale")
    (_get_point a "nasion") (_get_point a "chin_tip")
    (_get_point a "labiale_superius").
  intros nt sn na ct ul.
  destruct nt, sn, na, ct, ul; cbv beta iota zeta;
    try match goal with
    | |- context [match safe_ratio ?n ?d ?e with _ => _ end] =>
        destruct (safe_ratio n d e)
    end; reflexivity.
Qed.

Lemma c2_analyzer :
  exists a,
    FaceAnalyzer_init c2_landmarks None (Some c2_index_map) = Ok a /\
    eps a = 1e-8 /\
    _get_point a "alare_L" = Some (mkP3 0.4 0.6 0) /\
    _get_point a "alare_R" = Some (mkP3 0.6 0.6 0) /\
    _get_point a "L_eye_inner" = Some (mkP3 0.5 0.4 0) /\
    _get_point a "R_eye_inner" = Some (mkP3 0.5 0.4 0).
Proof.
  eexists. split; [reflexivity | ]. split; [reflexivity | ].
  assert (Hv : init_visibility c2_landmarks = repeat 1 4%nat).
  { unfold init_visibility. simpl. rewrite Reqb_1_0. reflexivity. }
  repeat split;
    (rewrite _get_point_confident;
     [ reflexivity
     | cbn [visibility points]; rewrite Hv; reflexivity
     | cbn [visibility visibility_threshold]; rewrite Hv;
       apply all_ones_confident ]).
Qed.

(** C2: a ratio whose denominator is below 1e-8 is to be omitted, never
    emitted with a null value.  On an input whose inner-eye points
    coincide, [analyze_nose] nevertheless emits
    [nose.alar_width_over_inter_eye] with value [None] and [valid] true. *)
Theorem alar_width_emitted_with_null :
  py_path (analyze_face_ratios polyfit_parabola c2_landmarks None
             (Some c2_index_map))
    ["nose"; "alar_width_over_inter_eye"]
  = Some (create_metric PNone "2D"
            ["alare_L"; "alare_R"; "L_eye_inner"; "R_eye_inner"] true 1).
Proof.
  destruct c2_analyzer as (a & Hinit & He & Hl & Hr & Hel & Her).
  unfold analyze_face_ratios. rewrite Hinit. cbn [bind].
  destruct (@analyze_ok polyfit_parabola a He) as (g & _ & ->).
  rewrite (@py_path_dict _ "nose" _ (PDict (analyze_nose a)))
    by reflexivity.
  rewrite (@py_path_dict _ "alar_width_over_inter_eye" _
             (create_metric PNone "2D"
                ["alare_L"; "alare_R"; "L_eye_inner"; "R_eye_inner"]
                true 1)); [reflexivity | ].
  apply (analyze_nose_alar_null a Hl Hr Hel Her).
  unfold dist. cbn [px py].
  replace (sq (0.5 - 0.5) + sq (0.4 - 0.4)) with 0 by (unfold sq; lra).
  rewrite sqrt_0. lra.
Qed.

(** ** Canthal tilt *)

Lemma atan_pos (t : R) : 0 < t -> 0 < atan t.
Proof. intro H. rewrite <- atan_0. apply atan_increasing. assumption. Qed.

Lemma atan_neg (t : R) : t < 0 -> atan t < 0.
Proof. intro H. rewrite <- atan_0. apply atan_increasing. assumption. Qed.

Lemma arctan2_pos (y x : R) : 0 <= x -> 0 < y -> 0 < arctan2 y x.
Proof.
  intros Hx Hy. unfold arctan2.
  destruct (Rlt_dec 0 x) as [Hpos | Hnpos].
  - rewrite (Rltb_true Hpos). apply atan_pos.
    apply Rdiv_lt_0_compat; assumption.
  - rewrite (Rltb_false Hnpos).
    rewrite (Rltb_false (x := x) (y := 0)) by lra.
    rewrite (Rltb_true Hy). pose proof PI_RGT_0. lra.
Qed.

Lemma arctan2_neg (y x : R) : 0 <= x -> y < 0 -> arctan2 y x < 0.
Proof.
  intros Hx Hy. unfold arctan2.
  destruct (Rlt_dec 0 x) as [Hpos | Hnpos].
  - rewrite (Rltb_true Hpos). apply atan_neg.
    replace (y / x) with (- (- y / x)) by (field; lra).
    apply Ropp_lt_gt_0_contravar. apply Rdiv_lt_0_compat; lra.
  - rewrite (Rltb_false Hnpos).
    rewrite (Rltb_false (x := x) (y := 0)) by lra.
    rewrite (Rltb_false (x := 0) (y := y)) by lra.
    rewrite (Rltb_true Hy). pose proof PI_RGT_0. lra.
Qed.

Lemma degrees_sign (t : R) :
  (0 < t -> 0 < degrees t) /\ (t < 0 -> degrees t < 0).
Proof.
  unfold degrees. pose proof PI_RGT_0 as Hpi.
  assert (Hk : 0 < 180 / PI) by (apply Rdiv_lt_0_compat; lra).
  split; intro H; nra.
Qed.

(** The sign of the tilt follows [outer.y - inner.y]: it is positive
    exactly when the outer canthus has the larger y coordinate. *)
Lemma canthal_tilt_sign (outer inner : P3) :
  (0 < canthal_tilt outer inner <-> py inner < py outer) /\
  (canthal_tilt outer inner < 0 <-> py outer < py inner).
Proof.
  unfold canthal_tilt.
  set (dy := py outer - py inner). set (dx := Rabs (px outer - px inner)).
  assert (Hdx : 0 <= dx) by apply Rabs_pos.
  destruct (degrees_sign (arctan2 dy dx)) as [Hp Hn].
  destruct (Rtotal_order dy 0) as [Hlt | [Heq | Hgt]].
  - pose proof (Hn (arctan2_neg Hdx Hlt)). subst dy. split; split; lra.
  - rewrite Heq, (arctan2_zero_nonneg Hdx), degrees_0.
    subst dy. split; split; lra.
  - pose proof (Hp (arctan2_pos Hdx Hgt)). subst dy. split; split; lra.
Qed.

Lemma analyze_eyes_canthal_tilt (a : FaceAnalyzer) (side : string)
    (outer inner : P3) :
  side = "L" \/ side = "R" ->
  _get_point a (side ++ "_eye_outer") = Some outer ->
  _get_point a (side ++ "_eye_inner") = Some inner ->
  dict_get (analyze_eyes a) ("canthal_tilt_deg_" ++ side)
  = Some (create_metric (PFloat (canthal_tilt outer inner)) "2D"
            [side ++ "_eye_outer"; side ++ "_eye_inner"] true 1).
Proof.
  intros Hside Ho Hi. unfold analyze_eyes, eyes_side, brow_side.
  cbv beta iota zeta delta [fold_left].
  destruct Hside; subst side; cbn [String.append] in *;
    rewrite ?Ho, ?Hi;
    generalize (_get_point a "L_eye_outer") (_get_point a "L_eye_inner")
      (_get_point a "R_eye_outer") (_get_point a "R_eye_inner")
      (_get_point a "L_brow_inner") (_get_point a "L_brow_outer")
      (_get_point a "R_brow_inner") (_get_point a "R_brow_outer");
    intros lo li ro ri lbi lbo rbi rbo;
    destruct lo, li, ro, ri, lbi, lbo, rbi, rbo; cbv beta iota zeta;
    try match goal with
    | |- context [match safe_ratio ?n ?d ?e with _ => _ end] =>
        destruct (safe_ratio n d e)
    end; reflexivity.
Qed.

Lemma rotate_row_id (p : P3) : rotate_row 1 0 p = p.
Proof. destruct p as [x y z]. unfold rotate_row. simpl. f_equal; ring. Qed.

Lemma ex_points_normalized :
  _apply_roll_correction ex_index_map ex_points = ex_points.
Proof.
  unfold _apply_roll_correction.
  change (np_index ex_points (get_default ex_index_map "L_eye_outer" 33%Z))
    with (Some (mkP3 0.3 0.4 0)).
  change (np_index ex_points (get_default ex_index_map "R_eye_outer" 263%Z))
    with (Some (mkP3 0.7 0.4 0)).
  cbv beta iota zeta. cbn [px py].
  replace (0.4 - 0.4) with 0 by lra.
  rewrite arctan2_zero_nonneg by lra.
  rewrite Ropp_0, cos_0, sin_0.
  rewrite (map_ext _ (fun p => p) rotate_row_id). apply map_id.
Qed.

Lemma ex_analyzer :
  exists a,
    FaceAnalyzer_init (ex_landmarks (Some 1) (Some 1)) None
      (Some ex_index_map) = Ok a /\
    eps a = 1e-8 /\
    _get_point a "L_eye_outer" = Some (mkP3 0.3 0.4 0) /\
    _get_point a "L_eye_inner" = Some (mkP3 0.4 0.5 0).
Proof.
  exists (mkFaceAnalyzer (ex_landmarks (Some 1) (Some 1)) [] ex_index_map
            false 0.3 1e-8
            (_apply_roll_correction ex_index_map ex_points)
            (init_visibility (ex_landmarks (Some 1) (Some 1)))
            (_compute_scale_basis ex_index_map
               (_apply_roll_correction ex_index_map ex_points) 1e-8)).
  split; [reflexivity | ]. split; [reflexivity | ].
  assert (Hv : init_visibility (ex_landmarks (Some 1) (Some 1))
               = repeat 1 3%nat).
  { unfold init_visibility. simpl. rewrite Reqb_1_0. reflexivity. }
  split;
    (rewrite _get_point_confident;
     [ unfold resolve_point; cbn [index_map points];
       rewrite ex_points_normalized; reflexivity
     | cbn [visibility points];
       rewrite Hv, ex_points_normalized; reflexivity
     | cbn [visibility visibility_threshold]; rewrite Hv;
       apply all_ones_confident ]).
Qed.

Lemma canthal_tilt_example :
  canthal_tilt (mkP3 0.3 0.4 0) (mkP3 0.4 0.5 0) = -45.
Proof.
  unfold canthal_tilt. cbn [px py].
  rewrite (Rabs_left (0.3 - 0.4)) by lra.
  unfold arctan2.
  replace (- (0.3 - 0.4)) with (1 / 10) by lra.
  replace (0.4 - 0.5) with (- 1 / 10) by lra.
  replace (- 1 / 10 / (1 / 10)) with (Ropp 1) by field.
  rewrite Rltb_true by lra.
  rewrite atan_opp, atan_1. unfold degrees.
  pose proof PI_RGT_0. field. lra.
Qed.

(** C8: the canthal tilt is the arctangent, in degrees, of the vertical
    over the horizontal canthus separation, meant to be positive when the
    outer corner is higher (smaller y, y growing downward).  On an input
    whose left outer canthus is higher than the inner one (outer y 0.4,
    inner y 0.5), [analyze_eyes] reports a tilt of -45 degrees: the
    magnitude is right, the sign is reversed. *)
Theorem canthal_tilt_negative_for_raised_outer_corner :
  exists a,
    FaceAnalyzer_init (ex_landmarks (Some 1) (Some 1)) None
      (Some ex_index_map) = Ok a /\
    _get_point a "L_eye_outer" = Some (mkP3 0.3 0.4 0) /\
    _get_point a "L_eye_inner" = Some (mkP3 0.4 0.5 0) /\
    py_path (analyze_face_ratios polyfit_parabola
               (ex_landmarks (Some 1) (Some 1)) None (Some ex_index_map))
      ["eyes"; "canthal_tilt_deg_L"; "value"]
    = Some (PFloat (-45)).
Proof.
  destruct ex_analyzer as (a & Hinit & He & Ho & Hi).
  exists a. split; [exact Hinit | ]. split; [exact Ho | ].
  split; [exact Hi | ].
  unfold analyze_face_ratios. rewrite Hinit. cbn [bind].
  destruct (@analyze_ok polyfit_parabola a He) as (g & _ & ->).
  rewrite (@py_path_dict _ "eyes" _ (PDict (analyze_eyes a)))
    by reflexivity.
  rewrite (@py_path_dict _ "canthal_tilt_deg_L" _
             (create_metric
                (PFloat (canthal_tilt (mkP3 0.3 0.4 0) (mkP3 0.4 0.5 0)))
                "2D" ["L_eye_outer"; "L_eye_inner"] true 1))
    by (apply (@analyze_eyes_canthal_tilt a "L"); auto).
  rewrite canthal_tilt_example. reflexivity.
Qed.

(** * Further properties of the engine *)

(** ** Dict updates and lookups *)

Lemma dict_get_set_eq {V} (d : dict V) (k : string) (v : V) :
  dict_get (dict_set d k v) k = Some v.
Proof.
  induction d as [ | [k' v'] d IH]; simpl.
  - rewrite String.eqb_refl. reflexivity.
  - destruct (String.eqb k' k) eqn:E; simpl; rewrite E;
      [reflexivity | exact IH].
Qed.

Lemma dict_get_set_ne {V} (d : dict V) (k k' : string) (v : V) :
  String.eqb k k' = false ->
  dict_get (dict_set d k v) k' = dict_get d k'.
Proof.
  intro Hne. induction d as [ | [k0 v0] d IH]; simpl.
  - rewrite Hne. reflexivity.
  - destruct (String.eqb k0 k) eqn:E; simpl.
    + apply String.eqb_eq in E. subst k0. rewrite Hne. reflexivity.
    + destruct (String.eqb k0 k'); [reflexivity | exact IH].
Qed.

Lemma Forall_dict_set {V} (P : V -> Prop) (d : dict V) (k : string)
    (v : V) :
  Forall (fun kv => P (snd kv)) d -> P v ->
  Forall (fun kv => P (snd kv)) (dict_set d k v).
Proof.
  intros Hd Hv. induction d as [ | [k' v'] d IH]; simpl.
  - constructor; [exact Hv | constructor].
  - inversion Hd as [ | ? ? Hh Ht]; subst.
    destruct (String.eqb k' k); constructor; auto.
Qed.

(** ** Angles *)

Lemma degrees_le (x y : R) : x <= y -> degrees x <= degrees y.
Proof.
  intro H. unfold degrees. pose proof PI_RGT_0.
  assert (0 < 180 / PI) by (apply Rdiv_lt_0_compat; lra). nra.
Qed.

Lemma degrees_lt (x y : R) : x < y -> degrees x < degrees y.
Proof.
  intro H. unfold degrees. pose proof PI_RGT_0.
  assert (0 < 180 / PI) by (apply Rdiv_lt_0_compat; lra). nra.
Qed.

Lemma degrees_PI : degrees PI = 180.
Proof. unfold degrees. pose proof PI_RGT_0. field. lra. Qed.

Lemma degrees_PI2 : degrees (PI / 2) = 90.
Proof. unfold degrees. pose proof PI_RGT_0. field. lra. Qed.

Lemma degrees_opp (x : R) : degrees (- x) = - degrees x.
Proof. unfold degrees. ring. Qed.

Lemma clip_0 : clip 0 (-1) 1 = 0.
Proof.
  unfold clip, Rmax, Rmin.
  destruct (Rle_dec 0 (-1)); [lra | ].
  destruct (Rle_dec 0 1); lra.
Qed.

(** X4: the angle at a vertex is always between 0 and 180 degrees, and
    when the first point coincides with the vertex (a zero edge vector) it
    is exactly 90 degrees, the added 1e-8 keeping the division defined. *)
Theorem angle_deg_range :
  (forall p1 vertex p2, 0 <= angle_deg p1 vertex p2 <= 180) /\
  (forall vertex p2, angle_deg vertex vertex p2 = 90).
Proof.
  split.
  - intros p1 vertex p2. unfold angle_deg. cbv zeta.
    pose proof (acos_bound (clip (dot3 (sub3 p1 vertex) (sub3 p2 vertex)
                                  / (norm3 (sub3 p1 vertex)
                                     * norm3 (sub3 p2 vertex) + 1e-8))
                                 (-1) 1)) as [Hlo Hhi].
    rewrite <- degrees_0 at 1. rewrite <- degrees_PI.
    split; apply degrees_le; assumption.
  - intros vertex p2. unfold angle_deg. cbv zeta.
    replace (dot3 (sub3 vertex vertex) (sub3 p2 vertex)) with 0
      by (unfold dot3, sub3; cbn [px py pz]; ring).
    unfold Rdiv at 1. rewrite Rmult_0_l, clip_0, acos_0.
    apply degrees_PI2.
Qed.

Lemma arctan2_right_half (y x : R) :
  0 <= x -> - (PI / 2) <= arctan2 y x <= PI / 2.
Proof.
  intro Hx. unfold arctan2. pose proof PI_RGT_0.
  destruct (Rlt_dec 0 x) as [Hpos | Hnpos].
  - rewrite (Rltb_true Hpos). pose proof (atan_bound (y / x)). lra.
  - rewrite (Rltb_false Hnpos).
    rewrite (Rltb_false (x := x) (y := 0)) by lra.
    destruct (Rlt_dec 0 y) as [Hy | Hy];
      [rewrite (Rltb_true Hy) | rewrite (Rltb_false Hy)]; [lra | ].
    destruct (Rlt_dec y 0) as [Hy' | Hy'];
      [rewrite (Rltb_true Hy') | rewrite (Rltb_false Hy')]; lra.
Qed.

Lemma arctan2_right_open (y x : R) :
  0 < x -> - (PI / 2) < arctan2 y x < PI / 2.
Proof.
  intro Hx. unfold arctan2. rewrite (Rltb_true Hx).
  pose proof (atan_bound (y / x)). lra.
Qed.

(** X5: the canthal tilt computed from any two canthus points lies
    between -90 and 90 degrees (the horizontal separation enters as an
    absolute value). *)
Theorem canthal_tilt_range (outer inner : P3) :
  -90 <= canthal_tilt outer inner <= 90.
Proof.
  unfold canthal_tilt.
  destruct (arctan2_right_half (py outer - py inner)
              (Rabs_pos (px outer - px inner))) as [Hlo Hhi].
  apply degrees_le in Hlo, Hhi.
  rewrite degrees_opp in Hlo. rewrite degrees_PI2 in Hlo, Hhi. lra.
Qed.

(** ** Curvature *)

Section Curvature.

Variable np_polyfit : list R -> list R -> nat -> result (list R).

(** X6: whatever [np.polyfit] returns or raises, the curvature proxy is
    never negative, and it is 0.0 when there are fewer than degree + 1
    points, when the degree is below 2 and when the fit raises. *)
Theorem polyfit_curvature_nonneg (pts : list (R * R)) (degree : nat) :
  0 <= polyfit_curvature np_polyfit pts degree /\
  ((List.length pts < degree + 1)%nat ->
   polyfit_curvature np_polyfit pts degree = 0) /\
  ((degree < 2)%nat -> polyfit_curvature np_polyfit pts degree = 0) /\
  (forall e, np_polyfit (map fst pts) (map snd pts) degree = Raise e ->
   polyfit_curvature np_polyfit pts degree = 0).
Proof.
  unfold polyfit_curvature.
  destruct (List.length pts <? degree + 1)%nat eqn:Elen.
  { repeat split; intros; lra. }
  apply Nat.ltb_ge in Elen.
  destruct (np_polyfit (map fst pts) (map snd pts) degree)
    as [coeffs | e0] eqn:Efit.
  - destruct (2 <=? degree)%nat eqn:Edeg.
    + apply Nat.leb_le in Edeg.
      destruct coeffs as [ | c0 coeffs].
      * repeat split; intros; try lra; try lia; discriminate.
      * split; [apply Rabs_pos | ].
        split; [intro; lia | ].
        split; [intro; lia | intros; discriminate].
    + repeat split; intros; lra.
  - repeat split; intros; lra.
Qed.

End Curvature.

Lemma polyfit_curvature_nonneg_witness :
  polyfit_curvature polyfit_parabola [(0, 0); (1, 1)] 2 = 0.
Proof.
  apply (proj1 (proj2 (@polyfit_curvature_nonneg polyfit_parabola
                         [(0, 0); (1, 1)] 2%nat))).
  simpl. lia.
Defined.

(** ** Pose estimate *)

Ltac dict_lookup_in H :=
  repeat first
    [ rewrite dict_get_set_eq in H
    | rewrite dict_get_set_ne in H by reflexivity ].

(** X7: in the pose estimate of an analyzer built from landmarks, the yaw
    lies between -90 and 90 degrees and the pitch strictly between them
    (its horizontal argument is at least the positive epsilon). *)
Theorem pose_angles_bounded lms bs im a :
  FaceAnalyzer_init lms bs im = Ok a ->
  (forall v, dict_get (_estimate_pose a) "yaw_deg" = Some (PFloat v) ->
             -90 <= v <= 90) /\
  (forall v, dict_get (_estimate_pose a) "pitch_deg" = Some (PFloat v) ->
             -90 < v < 90).
Proof.
  intro Hinit. pose proof (FaceAnalyzer_init_eps _ _ _ Hinit) as He.
  unfold _estimate_pose. rewrite He.
  generalize (_get_point a "nose_tip") (_get_point a "chin_tip")
    (_get_point a "L_ear_top") (_get_point a "R_ear_top").
  intros nt ct le re.
  split; intros v H;
    destruct nt as [nt | ], ct as [ct | ], le as [le | ], re as [re | ];
    cbv beta iota zeta in H; dict_lookup_in H;
    try discriminate H; injection H as <-.
  all: try (pose proof (asin_bound (clip (px nt * 2) (-1) 1)) as [Hlo Hhi];
            apply degrees_le in Hlo, Hhi;
            rewrite degrees_opp in Hlo; rewrite degrees_PI2 in Hlo, Hhi;
            lra).
  all: assert (Hx : 0 < Rabs (pz ct - pz nt) + 1e-8)
         by (pose proof (Rabs_pos (pz ct - pz nt)); lra);
       destruct (arctan2_right_open (py ct - py nt) Hx) as [Hlo Hhi];
       apply degrees_lt in Hlo, Hhi;
       rewrite degrees_opp in Hlo; rewrite degrees_PI2 in Hlo, Hhi;
       lra.
Qed.

(** ** Point lookup is sound *)

(** X8: a point returned by [_get_point] is the row of the point array
    at the index the name maps to, that index is below the array length,
    and either all stored confidence values are zero or the point's own
    confidence is at least the threshold. *)
Theorem _get_point_sound (a : FaceAnalyzer) (name : string) (p : P3) :
  _get_point a name = Some p ->
  exists idx,
    dict_get (index_map a) name = Some idx /\
    (idx < Z.of_nat (List.length (points a)))%Z /\
    np_index (points a) idx = Some p /\
    (all_zero (visibility a) = true \/
     exists v, np_index (visibility a) idx = Some v /\
               visibility_threshold a <= v).
Proof.
  unfold _get_point.
  destruct (dict_get (index_map a) name) as [idx | ]; [ | discriminate].
  destruct (Z.of_nat (List.length (points a)) <=? idx)%Z eqn:Elen;
    [discriminate | ].
  apply Z.leb_gt in Elen.
  destruct (all_zero (visibility a)) eqn:Ez; cbn [negb].
  - intro H. exists idx. auto.
  - destruct (np_index (visibility a) idx) as [v | ] eqn:Ev;
      [ | discriminate].
    destruct (Rlt_dec v (visibility_threshold a)) as [Hlt | Hge].
    + rewrite (Rltb_true Hlt). discriminate.
    + rewrite (Rltb_false Hge). intro H. exists idx.
      repeat split; try assumption.
      right. exists v. split; [exact Ev | lra].
Qed.

Lemma _get_point_sound_witness :
  exists a idx,
    dict_get (index_map a) "L_eye_outer" = Some idx /\
    (idx < Z.of_nat (List.length (points a)))%Z /\
    np_index (points a) idx = Some (mkP3 0.3 0.4 0) /\
    (all_zero (visibility a) = true \/
     exists v, np_index (visibility a) idx = Some v /\
               visibility_threshold a <= v).
Proof.
  destruct ex_analyzer as (a & _ & _ & Ho & _).
  exists a. exact (@_get_point_sound a "L_eye_outer" _ Ho).
Defined.

(** ** Symmetry *)

(** X9: the symmetry mapping always has the [bilateral_feature_deltas]
    entry, and a [midline_symmetry_score], when present, is a metric whose
    value lies between 0 and 1. *)
Theorem symmetry_score_range (a : FaceAnalyzer) :
  (exists deltas,
     dict_get (analyze_symmetry a) "bilateral_feature_deltas"
     = Some (PDict deltas)) /\
  (forall m,
     dict_get (analyze_symmetry a) "midline_symmetry_score" = Some m ->
     exists score,
       m = create_metric (PFloat score) "2D"
             (map fst symmetry_pairs ++ map snd symmetry_pairs)%list
             true 1 /\
       0 <= score <= 1).
Proof.
  unfold analyze_symmetry.
  destruct (fold_left (symmetry_pair a) symmetry_pairs ([], []))
    as [devs deltas].
  destruct devs as [ | d devs]; cbv beta iota zeta.
  - split.
    + exists deltas. apply dict_get_set_eq.
    + intros m H. dict_lookup_in H. discriminate H.
  - split.
    + exists deltas. apply dict_get_set_eq.
    + intros m H. dict_lookup_in H. injection H as <-.
      eexists. split; [reflexivity | ].
      unfold Rmax, Rmin.
      repeat match goal with
      | |- context [Rle_dec ?x ?y] => destruct (Rle_dec x y)
      end; lra.
Qed.

(** ** Emitted metrics carry numbers and available sources *)

Lemma Forall_dict_set_entry {V} (P : string * V -> Prop) (d : dict V)
    (k : string) (v : V) :
  Forall P d -> P (k, v) -> Forall P (dict_set d k v).
Proof.
  intros Hd Hv. induction d as [ | [k' v'] d IH]; simpl.
  - constructor; [exact Hv | constructor].
  - inversion Hd as [ | ? ? Hh Ht]; subst.
    destruct (String.eqb k' k) eqn:E; constructor; auto.
    apply String.eqb_eq in E. subst k'. exact Hv.
Qed.

Ltac solve_float := do 4 eexists; reflexivity.

Ltac solve_sourced :=
  do 4 eexists; split; [reflexivity | repeat constructor; congruence].

Ltac solve_sound := split; [solve_float | solve_sourced].

Ltac peel solver :=
  repeat first
    [ apply Forall_nil
    | apply Forall_dict_set; [ | solve [solver] ]
    | apply Forall_dict_set_entry; [ | solve [solver] ]
    | match goal with
      | |- Forall _ (match ?x with _ => _ end) =>
          destruct x eqn:?; cbv beta iota
      | |- Forall _ (if ?b then _ else _) =>
          destruct b eqn:?; cbv beta iota
      end ].

Lemma eyes_side_sound (a : FaceAnalyzer) (d : dict pyval) (side : string) :
  Forall (fun kv => sound_metric a (snd kv)) d ->
  Forall (fun kv => sound_metric a (snd kv)) (eyes_side a d side).
Proof.
  intro Hd. unfold eyes_side. cbv zeta.
  destruct (_get_point a (side ++ "_eye_outer")) eqn:Eo; [ | exact Hd].
  destruct (_get_point a (side ++ "_eye_inner")) eqn:Ei; [ | exact Hd].
  repeat (apply Forall_dict_set; [ | solve [solve_sound] ]). exact Hd.
Qed.

Lemma brow_side_sound (a : FaceAnalyzer) (d : dict pyval) (side : string) :
  Forall (fun kv => sound_metric a (snd kv)) d ->
  Forall (fun kv => sound_metric a (snd kv)) (brow_side a d side).
Proof.
  intro Hd. unfold brow_side. cbv zeta.
  destruct (_get_point a (side ++ "_brow_inner")) eqn:Ebi; [ | exact Hd].
  destruct (_get_point a (side ++ "_brow_outer")) eqn:Ebo; [ | exact Hd].
  destruct (_get_point a (side ++ "_eye_inner")) eqn:Ei; [ | exact Hd].
  repeat (apply Forall_dict_set; [ | solve [solve_sound] ]). exact Hd.
Qed.

Lemma analyze_eyes_sound (a : FaceAnalyzer) :
  Forall (fun kv => sound_metric a (snd kv)) (analyze_eyes a).
Proof.
  unfold analyze_eyes. cbv beta iota zeta delta [fold_left].
  repeat first
    [ apply brow_side_sound
    | apply eyes_side_sound
    | apply Forall_nil
    | apply Forall_dict_set; [ | solve [solve_sound] ]
    | match goal with
      | |- Forall _ (match ?x with _ => _ end) =>
          destruct x eqn:?; cbv beta iota
      end ].
Qed.

Lemma analyze_profile_sound (a : FaceAnalyzer) :
  Forall (fun kv => sound_metric a (snd kv)) (analyze_profile a).
Proof. unfold analyze_profile. cbv zeta. peel solve_sound. Qed.

Section MetricSoundness.

Variable np_polyfit : list R -> list R -> nat -> result (list R).

Lemma analyze_mouth_sound (a : FaceAnalyzer) :
  Forall (fun kv => sound_metric a (snd kv)) (analyze_mouth np_polyfit a).
Proof. unfold analyze_mouth. cbv zeta. peel solve_sound. Qed.

(** X10: every entry of the eyes, mouth and profile mappings is a metric
    with a numeric value, never null, and every name in its
    [source_points] is a point the analyzer's lookup returns. *)
Theorem region_metrics_sound (a : FaceAnalyzer) :
  Forall (fun kv => sound_metric a (snd kv)) (analyze_eyes a) /\
  Forall (fun kv => sound_metric a (snd kv)) (analyze_mouth np_polyfit a) /\
  Forall (fun kv => sound_metric a (snd kv)) (analyze_profile a).
Proof.
  split; [apply analyze_eyes_sound | ].
  split; [apply analyze_mouth_sound | apply analyze_profile_sound].
Qed.

End MetricSoundness.

(** X11: every entry of the nose mapping is a metric whose source points
    are all available, and every entry other than
    [alar_width_over_inter_eye] has a numeric value. *)
Theorem nose_metrics_sourced (a : FaceAnalyzer) :
  Forall (fun kv =>
            sourced_metric a (snd kv) /\
            (fst kv <> "alar_width_over_inter_eye" ->
             float_metric (snd kv)))
         (analyze_nose a).
Proof.
  unfold analyze_nose. cbv zeta.
  peel ltac:(split;
             [ solve_sourced
             | first [ intro Hk; exfalso; apply Hk; reflexivity
                     | intros _; solve_float ] ]).
Qed.

(** X12: for an analyzer built from landmarks, every entry of the
    structure mapping has a numeric value: the thirds ratios are only
    stored when their denominator exceeds 1e-8. *)
Theorem structure_metrics_numeric lms bs im a :
  FaceAnalyzer_init lms bs im = Ok a ->
  Forall (fun kv => float_metric (snd kv)) (analyze_structure a).
Proof.
  intro Hinit. pose proof (FaceAnalyzer_init_eps _ _ _ Hinit) as He.
  unfold analyze_structure. rewrite He. cbv zeta.
  peel ltac:(first
    [ solve_float
    | match goal with
      | H : Rltb 1e-8 ?m = true |- _ =>
          apply Rltb_spec in H; rewrite (@safe_ratio_some _ _ H);
          solve_float
      end ]).
Qed.

(** ** Blendshape summary *)

Lemma active_blendshapes_fold (bss : list Blendshape) (acc : list pyval) :
  fold_left
    (fun active bs =>
       let score_is_active :=
         match bs_score bs with
         | Some s => Rltb 0.1 s
         | None => false
         end in
       if score_is_active then
         (active ++
          [PDict [ ("name",
                    PStr (match bs_category_name bs with
                          | Some n => n
                          | None => "unknown"
                          end));
                   ("score",
                    match bs_score bs with
                    | Some s => PFloat s
                    | None => PInt 0
                    end) ]])%list
       else active)
    bss acc
  = (acc ++ map blendshape_entry (filter blendshape_is_active bss))%list.
Proof.
  revert acc. induction bss as [ | bs bss IH]; intro acc; simpl.
  - rewrite app_nil_r. reflexivity.
  - rewrite IH. unfold blendshape_is_active at 2.
    destruct (match bs_score bs with
              | Some s => Rltb 0.1 s
              | None => false
              end); simpl.
    + rewrite <- app_assoc. reflexivity.
    + reflexivity.
Qed.

(** X13: without blendshapes the summary is empty; otherwise it holds
    their total number and, as active, exactly the blendshapes whose score
    exceeds 0.1, in input order, each with its name (or "unknown") and
    score. *)
Theorem blendshape_summary_spec (a : FaceAnalyzer) :
  (blendshapes a = [] -> analyze_blendshapes a = []) /\
  (blendshapes a <> [] ->
   analyze_blendshapes a
   = [ ("total_blendshapes",
        PInt (Z.of_nat (List.length (blendshapes a))));
       ("active_blendshapes",
        PList (map blendshape_entry
                 (filter blendshape_is_active (blendshapes a)))) ]).
Proof.
  unfold analyze_blendshapes.
  destruct (blendshapes a) as [ | bs bss] eqn:E.
  - split; [reflexivity | intro H; contradiction].
  - split; [discriminate | ]. intros _.
    rewrite active_blendshapes_fold. reflexivity.
Qed.

Lemma blendshape_summary_spec_witness :
  exists a,
    FaceAnalyzer_init (ex_landmarks (Some 1) (Some 1))
      (Some [mkBlendshape (Some "jawOpen") (Some 0.5);
             mkBlendshape None (Some 0.05)])
      (Some ex_index_map) = Ok a /\
    analyze_blendshapes a
    = [ ("total_blendshapes",
         PInt (Z.of_nat (List.length (blendshapes a))));
        ("active_blendshapes",
         PList (map blendshape_entry
                  (filter blendshape_is_active (blendshapes a)))) ].
Proof.
  eexists. split; [reflexivity | ].
  apply (proj2 (@blendshape_summary_spec _)). discriminate.
Defined.

(** ** When the engine fails *)

Lemma landmark_rows_raise (lms : list Landmark) (e : exn) :
  landmark_rows lms = Raise e ->
  (exists lm, In lm lms /\ lacks_coordinate lm) /\
  (e = KeyError "x" \/ e = KeyError "y" \/ e = KeyError "z").
Proof.
  induction lms as [ | lm lms IH]; simpl; [discriminate | ].
  unfold landmark_row, lacks_coordinate.
  destruct (lm_x lm) eqn:Ex; simpl.
  2: { intro H. injection H as <-. split; [exists lm | ]; auto. }
  destruct (lm_y lm) eqn:Ey; simpl.
  2: { intro H. injection H as <-. split; [exists lm | ]; auto. }
  destruct (lm_z lm) eqn:Ez; simpl.
  2: { intro H. injection H as <-. split; [exists lm | ]; auto. }
  destruct (landmark_rows lms) as [ps | e']; simpl; [discriminate | ].
  intro H. injection H as <-.
  destruct (IH eq_refl) as ((lm' & Hin & Hl) & He).
  split; [exists lm'; auto | exact He].
Qed.

Lemma landmark_rows_ok (lms : list Landmark) (raw : list P3) :
  landmark_rows lms = Ok raw ->
  forall lm, In lm lms -> ~ lacks_coordinate lm.
Proof.
  revert raw. induction lms as [ | lm0 lms IH]; intros raw H lm Hin;
    simpl in *; [contradiction | ].
  unfold landmark_row in H.
  destruct (lm_x lm0) eqn:Ex; [ | discriminate].
  destruct (lm_y lm0) eqn:Ey; [ | discriminate].
  destruct (lm_z lm0) eqn:Ez; [ | discriminate].
  simpl in H.
  destruct (landmark_rows lms) as [ps | ]; [ | discriminate].
  destruct Hin as [<- | Hin].
  - unfold lacks_coordinate. rewrite Ex, Ey, Ez.
    intros [Hn | [Hn | Hn]]; discriminate.
  - exact (IH ps eq_refl lm Hin).
Qed.

Section EngineFailure.

Variable np_polyfit : list R -> list R -> nat -> result (list R).

Lemma analyze_face_ratios_ok lms bs im a :
  FaceAnalyzer_init lms bs im = Ok a ->
  is_analysis_result (analyze_face_ratios np_polyfit lms bs im).
Proof.
  intro Hinit. unfold analyze_face_ratios. rewrite Hinit. cbn [bind].
  destruct (@analyze_ok np_polyfit a (FaceAnalyzer_init_eps _ _ _ Hinit))
    as (g & _ & ->).
  eexists. split; [reflexivity | ]. split; [reflexivity | ].
  split; [ | reflexivity].
  repeat (constructor; [eexists; reflexivity | ]). constructor.
Qed.

Lemma landmark_rows_first_missing (pre : list Landmark) (lm : Landmark)
    (post : list Landmark) :
  (forall l, In l pre -> ~ lacks_coordinate l) ->
  lacks_coordinate lm ->
  landmark_rows (pre ++ lm :: post) = Raise (KeyError (first_missing_key lm)).
Proof.
  intros Hpre Hlm. induction pre as [ | l pre IH]; simpl.
  - unfold landmark_row, first_missing_key, lacks_coordinate in *.
    destruct (lm_x lm); [ | reflexivity].
    destruct (lm_y lm); [ | reflexivity].
    destruct (lm_z lm); [ | reflexivity].
    destruct Hlm as [H | [H | H]]; discriminate.
  - assert (Hl : ~ lacks_coordinate l) by (apply Hpre; left; reflexivity).
    unfold landmark_row, lacks_coordinate in *.
    destruct (lm_x l); [ | exfalso; auto].
    destruct (lm_y l); [ | exfalso; auto].
    destruct (lm_z l); [ | exfalso; auto].
    simpl. rewrite IH; [reflexivity | ].
    intros l' Hin. apply Hpre. right. exact Hin.
Qed.

(** X14: the engine returns the error envelope exactly when some
    landmark lacks an x, y or z coordinate; the error text is then the
    quoted name of the first key, in the order x, y, z, that the first
    such landmark lacks. *)
Theorem engine_fails_iff_coordinate_missing lms bs im :
  let r := analyze_face_ratios np_polyfit lms bs im in
  (is_error_envelope r <->
   exists lm, In lm lms /\ lacks_coordinate lm) /\
  (forall pre lm post,
     lms = (pre ++ lm :: post)%list ->
     (forall l, In l pre -> ~ lacks_coordinate l) ->
     lacks_coordinate lm ->
     py_path r ["error"]
     = Some (PStr ("'" ++ first_missing_key lm ++ "'")) /\
     py_path r ["status"] = Some (PStr "failed")).
Proof.
  intro r. subst r. split.
  - destruct (FaceAnalyzer_init lms bs im) as [a | e] eqn:Hinit.
    + pose proof (@analyze_face_ratios_ok _ _ _ _ Hinit) as Hres.
      pose proof (@is_analysis_result_not_envelope _ Hres) as Hnot.
      destruct (FaceAnalyzer_init_inv _ _ _ Hinit) as (raw & Hraw & _).
      split; intro H; [contradiction | ].
      destruct H as (lm & Hin & Hl).
      exfalso. exact (@landmark_rows_ok _ _ Hraw lm Hin Hl).
    + unfold analyze_face_ratios. rewrite Hinit. cbn [bind].
      apply FaceAnalyzer_init_raise in Hinit.
      destruct (@landmark_rows_raise _ _ Hinit) as (Hex & _).
      split; intro; [exact Hex | apply failure_envelope_is_envelope].
  - intros pre lm post -> Hpre Hlm.
    unfold analyze_face_ratios, FaceAnalyzer_init.
    rewrite (@landmark_rows_first_missing pre lm post Hpre Hlm).
    cbn [bind]. split; reflexivity.
Qed.

End EngineFailure.

Lemma engine_fails_iff_coordinate_missing_witness :
  py_path
    (analyze_face_ratios polyfit_parabola
       [ mkLandmark (Some 0.3) (Some 0.4) (Some 0) (Some 1) (Some 1);
         mkLandmark (Some 0.4) None None (Some 1) (Some 1);
         mkLandmark None (Some 0.4) (Some 0) (Some 1) (Some 1) ]
       None None)
    ["error"]
  = Some (PStr "'y'").
Proof.
  apply (proj2 (@engine_fails_iff_coordinate_missing polyfit_parabola
                  [ mkLandmark (Some 0.3) (Some 0.4) (Some 0) (Some 1)
                      (Some 1);
                    mkLandmark (Some 0.4) None None (Some 1) (Some 1);
                    mkLandmark None (Some 0.4) (Some 0) (Some 1) (Some 1) ]
                  None None)
           [ mkLandmark (Some 0.3) (Some 0.4) (Some 0) (Some 1) (Some 1) ]
           (mkLandmark (Some 0.4) None None (Some 1) (Some 1))
           [ mkLandmark None (Some 0.4) (Some 0) (Some 1) (Some 1) ]
           eq_refl).
  - intros l [<- | []]. unfold lacks_coordinate. simpl.
    intros [H | [H | H]]; discriminate.
  - unfold lacks_coordinate. simpl. auto.
Defined.

(** ** Bilateral deltas *)

Lemma FaceAnalyzer_init_scale_pos lms bs im a :
  FaceAnalyzer_init lms bs im = Ok a -> 0 < scale_basis a.
Proof.
  intro H. destruct (FaceAnalyzer_init_inv _ _ _ H) as (raw & _ & ->).
  cbn [scale_basis]. apply _compute_scale_basis_cases.
Qed.

Lemma symmetry_pair_deltas (a : FaceAnalyzer)
    (pairs : list (string * string)) (acc : list R * dict pyval) :
  0 < scale_basis a ->
  Forall (fun kv => exists d, snd kv = PFloat d /\ 0 <= d) (snd acc) ->
  Forall (fun kv => exists d, snd kv = PFloat d /\ 0 <= d)
         (snd (fold_left (symmetry_pair a) pairs acc)).
Proof.
  intro Hs. revert acc.
  induction pairs as [ | [l r] pairs IH]; intros [devs deltas] Hacc;
    simpl; [exact Hacc | ].
  apply IH.
  destruct (_get_point a l) as [pl | ]; [ | exact Hacc].
  destruct (_get_point a r) as [pr | ]; [ | exact Hacc].
  cbn [snd].
  apply (@Forall_dict_set _ (fun v => exists d, v = PFloat d /\ 0 <= d));
    [exact Hacc | ].
  eexists. split; [reflexivity | ].
  unfold Rdiv. apply Rmult_le_pos; [apply Rabs_pos | ].
  left. apply Rinv_0_lt_compat. exact Hs.
Qed.

(** X15: for an analyzer built from landmarks, every bilateral delta in
    the symmetry mapping is a non-negative number. *)
Theorem bilateral_deltas_nonneg lms bs im a :
  FaceAnalyzer_init lms bs im = Ok a ->
  exists deltas,
    dict_get (analyze_symmetry a) "bilateral_feature_deltas"
    = Some (PDict deltas) /\
    Forall (fun kv => exists d, snd kv = PFloat d /\ 0 <= d) deltas.
Proof.
  intro Hinit. pose proof (FaceAnalyzer_init_scale_pos _ _ _ Hinit) as Hs.
  pose proof (@symmetry_pair_deltas a symmetry_pairs ([], []) Hs
                (Forall_nil _)) as Hd.
  unfold analyze_symmetry.
  destruct (fold_left (symmetry_pair a) symmetry_pairs ([], []))
    as [devs deltas].
  exists deltas. split; [apply dict_get_set_eq | exact Hd].
Qed.

Lemma bilateral_deltas_nonneg_witness :
  exists a deltas,
    FaceAnalyzer_init (ex_landmarks (Some 1) (Some 1)) None
      (Some ex_index_map) = Ok a /\
    dict_get (analyze_symmetry a) "bilateral_feature_deltas"
    = Some (PDict deltas) /\
    Forall (fun kv => exists d, snd kv = PFloat d /\ 0 <= d) deltas.
Proof.
  eexists.
  destruct (@bilateral_deltas_nonneg (ex_landmarks (Some 1) (Some 1)) None
              (Some ex_index_map) _ eq_refl) as (deltas & Hg & Hd).
  exists deltas. split; [reflexivity | ]. split; [exact Hg | exact Hd].
Defined.

(** ** Evenness of the thirds *)

(** X17: within one analysis pass, a [thirds_evenness] entry has the
    value 1 - |u - l| / 2 for the two thirds ratios u and l of the
    structure mapping; it is at most 1, and exactly 1 when the ratios are
    equal. *)
Theorem thirds_evenness_at_most_one lms bs im a golden m :
  FaceAnalyzer_init lms bs im = Ok a ->
  analyze_golden_diagnostics a (analyze_structure a) = Ok golden ->
  dict_get golden "thirds_evenness" = Some m ->
  exists mu ml u l,
    dict_get (analyze_structure a) "upper_to_middle_third" = Some mu /\
    dict_get (analyze_structure a) "lower_to_middle_third" = Some ml /\
    py_path mu ["value"] = Some (PFloat u) /\
    py_path ml ["value"] = Some (PFloat l) /\
    m = create_metric (PFloat (1 - Rabs (u - l) / 2)) "2D" [] true 0.7 /\
    1 - Rabs (u - l) / 2 <= 1 /\
    (u = l -> 1 - Rabs (u - l) / 2 = 1).
Proof.
  intros Hinit Hg Hm.
  pose proof (FaceAnalyzer_init_eps _ _ _ Hinit) as He.
  destruct (analyze_structure_thirds a He) as [[Hu Hl] | (u & l & Hu & Hl)].
  - destruct (golden_thirds_absent a _ Hu Hl) as (g & Hg' & Ht).
    rewrite Hg in Hg'. injection Hg' as <-. congruence.
  - destruct (golden_thirds_present a _ Hu Hl) as (g & Hg' & Ht).
    rewrite Hg in Hg'. injection Hg' as <-.
    rewrite Ht in Hm. injection Hm as <-.
    eexists. eexists. exists u, l.
    split; [exact Hu | ]. split; [exact Hl | ].
    split; [reflexivity | ]. split; [reflexivity | ].
    rewrite np_std_pair. split; [reflexivity | ].
    pose proof (Rabs_pos (u - l)).
    split; [lra | ].
    intros ->. unfold Rminus at 2. rewrite Rplus_opp_r, Rabs_R0. lra.
Qed.

Lemma thirds_ratios_present (a : FaceAnalyzer) (g n s c : P3) :
  eps a = 1e-8 ->
  _compute_glabella a = Some g ->
  _get_point a "nasion" = Some n ->
  _get_point a "subnasale" = Some s ->
  _get_point a "chin_tip" = Some c ->
  1e-8 < dist n s D2 ->
  dict_get (analyze_structure a) "upper_to_middle_third"
  = Some (create_metric (PFloat (dist g n D2 / dist n s D2)) "2D"
            ["glabella"; "nasion"; "subnasale"] true 1) /\
  dict_get (analyze_structure a) "lower_to_middle_third"
  = Some (create_metric (PFloat (dist s c D2 / dist n s D2)) "2D"
            ["subnasale"; "chin_tip"; "nasion"] true 1).
Proof.
  intros He Hg Hn Hs Hc Hmid. unfold analyze_structure.
  rewrite He, Hg, Hn, Hs, Hc. cbv beta iota zeta.
  rewrite (Rltb_true Hmid), !(@safe_ratio_some _ _ Hmid).
  generalize (_get_point a "L_cheek") (_get_point a "R_cheek")
    (_get_point a "gonion_L") (_get_point a "gonion_R")
    (_get_point a "menton").
  intros lc rc gl gr m.
  destruct lc, rc, gl, gr, m; cbv beta iota zeta;
    try match goal with
    | |- context [match safe_ratio ?x ?d ?e with _ => _ end] =>
        destruct (safe_ratio x d e)
    end; split; reflexivity.
Qed.

Lemma thirds_analyzer :
  exists a,
    FaceAnalyzer_init thirds_landmarks None (Some thirds_index_map) = Ok a /\
    _compute_glabella a = Some (mkP3 ((0.4 + 0.6) / 2) ((0.2 + 0.2) / 2)
                                     ((0 + 0) / 2)) /\
    _get_point a "nasion" = Some (mkP3 0.5 0.4 0) /\
    _get_point a "subnasale" = Some (mkP3 0.5 0.6 0) /\
    _get_point a "chin_tip" = Some (mkP3 0.5 0.8 0).
Proof.
  eexists. split; [reflexivity | ].
  assert (Hv : init_visibility thirds_landmarks = repeat 1 5%nat).
  { unfold init_visibility. simpl. rewrite Reqb_1_0. reflexivity. }
  match goal with
  | |- _compute_glabella ?a = _ /\ _ =>
      assert (Hget : forall name, _get_point a name = resolve_point a name)
  end.
  { intro name. apply _get_point_confident.
    - cbn [visibility points]. rewrite Hv. reflexivity.
    - cbn [visibility visibility_threshold]. rewrite Hv.
      apply all_ones_confident. }
  unfold _compute_glabella. rewrite !Hget.
  repeat split; reflexivity.
Qed.

Lemma dist_vertical (x y1 y2 z1 z2 : R) :
  y1 <= y2 -> dist (mkP3 x y1 z1) (mkP3 x y2 z2) D2 = y2 - y1.
Proof.
  intro H. unfold dist, sq. cbn [px py].
  replace ((x - x) * (x - x) + (y1 - y2) * (y1 - y2))
    with ((y2 - y1) * (y2 - y1)) by ring.
  apply sqrt_square. lra.
Qed.

Lemma thirds_evenness_at_most_one_witness :
  exists a golden m mu ml u l,
    FaceAnalyzer_init thirds_landmarks None (Some thirds_index_map) = Ok a /\
    analyze_golden_diagnostics a (analyze_structure a) = Ok golden /\
    dict_get golden "thirds_evenness" = Some m /\
    dict_get (analyze_structure a) "upper_to_middle_third" = Some mu /\
    dict_get (analyze_structure a) "lower_to_middle_third" = Some ml /\
    py_path mu ["value"] = Some (PFloat u) /\
    py_path ml ["value"] = Some (PFloat l) /\
    m = create_metric (PFloat (1 - Rabs (u - l) / 2)) "2D" [] true 0.7 /\
    1 - Rabs (u - l) / 2 <= 1.
Proof.
  destruct thirds_analyzer as (a & Hinit & Hg & Hn & Hs & Hc).
  assert (Hmid : 1e-8 < dist (mkP3 0.5 0.4 0) (mkP3 0.5 0.6 0) D2)
    by (rewrite dist_vertical; lra).
  destruct (thirds_ratios_present a (FaceAnalyzer_init_eps _ _ _ Hinit)
              Hg Hn Hs Hc Hmid) as (Hu & Hl).
  destruct (golden_thirds_present a _ Hu Hl) as (golden & Hgold & Ht).
  destruct (@thirds_evenness_at_most_one thirds_landmarks None
              (Some thirds_index_map) a golden _ Hinit Hgold Ht)
    as (mu & ml & u & l & H1 & H2 & H3 & H4 & H5 & H6 & _).
  exists a, golden. eexists. exists mu, ml, u, l.
  exact (conj Hinit (conj Hgold (conj Ht (conj H1 (conj H2 (conj H3
           (conj H4 (conj H5 H6)))))))).
Defined.

Lemma thirds_evenness_from_structure_witness :
  exists a golden mu ml u l,
    FaceAnalyzer_init thirds_landmarks None (Some thirds_index_map) = Ok a /\
    analyze_golden_diagnostics a (analyze_structure a) = Ok golden /\
    dict_get (analyze_structure a) "upper_to_middle_third" = Some mu /\
    dict_get (analyze_structure a) "lower_to_middle_third" = Some ml /\
    py_path mu ["value"] = Some (PFloat u) /\
    py_path ml ["value"] = Some (PFloat l) /\
    dict_get golden "thirds_evenness"
    = Some (create_metric (PFloat (1 - np_std [u; l])) "2D" [] true 0.7).
Proof.
  destruct thirds_analyzer as (a & Hinit & Hg & Hn & Hs & Hc).
  assert (Hmid : 1e-8 < dist (mkP3 0.5 0.4 0) (mkP3 0.5 0.6 0) D2)
    by (rewrite dist_vertical; lra).
  destruct (thirds_ratios_present a (FaceAnalyzer_init_eps _ _ _ Hinit)
              Hg Hn Hs Hc Hmid) as (Hu & Hl).
  destruct (@thirds_evenness_from_structure thirds_landmarks None
              (Some thirds_index_map) a Hinit)
    as (golden & Hgold & [(Hnone & _) | (mu & ml & u & l & H)]).
  - rewrite Hu in Hnone. discriminate Hnone.
  - exists a, golden, mu, ml, u, l.
    exact (conj Hinit (conj Hgold H)).
Defined.

Lemma structure_metrics_numeric_witness :
  exists a mu,
    FaceAnalyzer_init thirds_landmarks None (Some thirds_index_map) = Ok a /\
    dict_get (analyze_structure a) "upper_to_middle_third" = Some mu /\
    Forall (fun kv => float_metric (snd kv)) (analyze_structure a).
Proof.
  destruct thirds_analyzer as (a & Hinit & Hg & Hn & Hs & Hc).
  assert (Hmid : 1e-8 < dist (mkP3 0.5 0.4 0) (mkP3 0.5 0.6 0) D2)
    by (rewrite dist_vertical; lra).
  destruct (thirds_ratios_present a (FaceAnalyzer_init_eps _ _ _ Hinit)
              Hg Hn Hs Hc Hmid) as (Hu & _).
  exists a. eexists.
  exact (conj Hinit (conj Hu
           (@structure_metrics_numeric thirds_landmarks None
              (Some thirds_index_map) a Hinit))).
Defined.

(** ** Deviations from the golden ratio *)

Lemma phi_deviations_fold (rs : list (string * R)) (acc : dict pyval) :
  Forall (fun kv => phi_deviation_entry (snd kv)) acc ->
  Forall (fun kv => phi_deviation_entry (snd kv))
    (fold_left
       (fun phi_deviations (nr : string * R) =>
          let '(name, ratio) := nr in
          let deviation := Rabs (ratio - PHI) / PHI in
          dict_set phi_deviations (name ++ "_phi_deviation")
            (create_metric (PFloat deviation) "2D" [] true 0.8))
       rs acc).
Proof.
  revert acc. induction rs as [ | [name ratio] rs IH]; intros acc Hacc;
    simpl; [exact Hacc | ].
  apply IH. apply Forall_dict_set; [exact Hacc | ].
  exists ratio. reflexivity.
Qed.

Lemma PHI_pos : 0 < PHI.
Proof. unfold PHI. lra. Qed.

Lemma phi_deviation_zero (ratio : R) :
  0 <= Rabs (ratio - PHI) / PHI /\
  (Rabs (ratio - PHI) / PHI = 0 <-> ratio = PHI).
Proof.
  pose proof PHI_pos as Hphi.
  assert (Hinv : 0 < / PHI) by (apply Rinv_0_lt_compat; exact Hphi).
  pose proof (Rabs_pos (ratio - PHI)) as Habs.
  unfold Rdiv. split; [apply Rmult_le_pos; lra | ].
  split.
  - intro H. apply Rmult_integral in H. destruct H as [H | H]; [ | lra].
    destruct (Req_dec (ratio - PHI) 0) as [Hz | Hnz]; [lra | ].
    exfalso. exact (Rabs_no_R0 _ Hnz H).
  - intros ->. unfold Rminus. rewrite Rplus_opp_r, Rabs_R0. ring.
Qed.

Lemma safe_ratio_ge (n d : R) :
  1e-8 <= d -> safe_ratio n d 1e-8 = Some (n / d).
Proof.
  intro H. unfold safe_ratio. rewrite Rltb_false; [reflexivity | ].
  rewrite Rabs_right by lra. lra.
Qed.

Lemma phi_deviations_fold_names (rs : list (string * R)) (acc : dict pyval) :
  Forall (fun kv => In (fst kv) phi_deviation_names) acc ->
  Forall (fun nr => In (fst nr ++ "_phi_deviation") phi_deviation_names) rs ->
  Forall (fun kv => In (fst kv) phi_deviation_names)
    (fold_left
       (fun phi_deviations (nr : string * R) =>
          let '(name, ratio) := nr in
          let deviation := Rabs (ratio - PHI) / PHI in
          dict_set phi_deviations (name ++ "_phi_deviation")
            (create_metric (PFloat deviation) "2D" [] true 0.8))
       rs acc).
Proof.
  revert acc. induction rs as [ | [name ratio] rs IH]; intros acc Hacc Hrs;
    simpl; [exact Hacc | ].
  inversion Hrs as [ | ? ? Hh Ht]; subst.
  apply IH; [ | exact Ht].
  apply Forall_dict_set_entry; [exact Hacc | exact Hh].
Qed.

Lemma Forall_and_both {A} (P Q : A -> Prop) (l : list A) :
  Forall P l -> Forall Q l -> Forall (fun x => P x /\ Q x) l.
Proof.
  intros HP HQ. induction l as [ | x l IH]; constructor;
    inversion HP; inversion HQ; subst; auto.
Qed.

Ltac phi_lookup :=
  repeat match goal with
  | |- context [match ?x with _ => _ end] => destruct x; cbv beta iota
  end;
  cbv beta iota zeta delta [fold_left app String.append];
  repeat first
    [ rewrite dict_get_set_eq
    | rewrite dict_get_set_ne by reflexivity ];
  reflexivity.

(** X16: whenever the golden diagnostics are computed, they hold a
    [phi_deviations] mapping whose every entry is a metric of confidence
    0.8 with value |ratio - PHI| / PHI for some ratio: never negative, and
    0 exactly when the ratio equals PHI, stored under one of the three
    names of [phi_deviation_names].  The entries are those of the
    engine's ratios: when its points are available and its denominator is
    at least 1e-8, [eye_to_mouth_width] is the outer-eye distance over
    the mouth width, [face_height_to_width] the nasion-to-chin distance
    over the cheek width, and [nose_mouth_to_mouth_chin] the
    subnasale-to-stomion distance over the stomion-to-chin distance. *)
Theorem phi_deviations_spec (a : FaceAnalyzer) (s g : dict pyval) :
  analyze_golden_diagnostics a s = Ok g ->
  exists pd,
    dict_get g "phi_deviations" = Some (PDict pd) /\
    Forall (fun kv =>
              In (fst kv) phi_deviation_names /\
              exists ratio,
                snd kv = create_metric
                           (PFloat (Rabs (ratio - PHI) / PHI)) "2D" []
                           true 0.8 /\
                0 <= Rabs (ratio - PHI) / PHI /\
                (Rabs (ratio - PHI) / PHI = 0 <-> ratio = PHI))
           pd /\
    (forall lo ro lm rm,
       _get_point a "L_eye_outer" = Some lo ->
       _get_point a "R_eye_outer" = Some ro ->
       _get_point a "cheilion_L" = Some lm ->
       _get_point a "cheilion_R" = Some rm ->
       1e-8 <= dist lm rm D2 ->
       dict_get pd "eye_to_mouth_width_phi_deviation"
       = Some (create_metric
                 (PFloat (Rabs (dist lo ro D2 / dist lm rm D2 - PHI) / PHI))
                 "2D" [] true 0.8)) /\
    (forall c n lc rc,
       _get_point a "chin_tip" = Some c ->
       _get_point a "nasion" = Some n ->
       _get_point a "L_cheek" = Some lc ->
       _get_point a "R_cheek" = Some rc ->
       1e-8 <= dist lc rc D2 ->
       dict_get pd "face_height_to_width_phi_deviation"
       = Some (create_metric
                 (PFloat (Rabs (dist n c D2 / dist lc rc D2 - PHI) / PHI))
                 "2D" [] true 0.8)) /\
    (forall sn st c,
       _get_point a "subnasale" = Some sn ->
       _get_point a "stomion" = Some st ->
       _get_point a "chin_tip" = Some c ->
       1e-8 <= dist st c D2 ->
       dict_get pd "nose_mouth_to_mouth_chin_phi_deviation"
       = Some (create_metric
                 (PFloat (Rabs (dist sn st D2 / dist st c D2 - PHI) / PHI))
                 "2D" [] true 0.8)).
Proof.
  unfold analyze_golden_diagnostics. cbv zeta.
  match goal with
  | |- context [fold_left ?f ?rs []] =>
      pose proof (@phi_deviations_fold rs [] (Forall_nil _)) as Hpd;
      cbv beta in Hpd;
      assert (Hnames : Forall (fun kv => In (fst kv) phi_deviation_names)
                         (fold_left f rs []));
      [ | assert (H1 : forall lo ro lm rm,
        _get_point a "L_eye_outer" = Some lo ->
        _get_point a "R_eye_outer" = Some ro ->
        _get_point a "cheilion_L" = Some lm ->
        _get_point a "cheilion_R" = Some rm ->
        1e-8 <= dist lm rm D2 ->
        dict_get (fold_left f rs []) "eye_to_mouth_width_phi_deviation"
        = Some (create_metric
                  (PFloat (Rabs (dist lo ro D2 / dist lm rm D2 - PHI) / PHI))
                  "2D" [] true 0.8));
      [ | assert (H2 : forall c n lc rc,
        _get_point a "chin_tip" = Some c ->
        _get_point a "nasion" = Some n ->
        _get_point a "L_cheek" = Some lc ->
        _get_point a "R_cheek" = Some rc ->
        1e-8 <= dist lc rc D2 ->
        dict_get (fold_left f rs []) "face_height_to_width_phi_deviation"
        = Some (create_metric
                  (PFloat (Rabs (dist n c D2 / dist lc rc D2 - PHI) / PHI))
                  "2D" [] true 0.8));
      [ | assert (H3 : forall sn st c,
        _get_point a "subnasale" = Some sn ->
        _get_point a "stomion" = Some st ->
        _get_point a "chin_tip" = Some c ->
        1e-8 <= dist st c D2 ->
        dict_get (fold_left f rs [])
          "nose_mouth_to_mouth_chin_phi_deviation"
        = Some (create_metric
                  (PFloat (Rabs (dist sn st D2 / dist st c D2 - PHI) / PHI))
                  "2D" [] true 0.8));
      [ | set (pd := fold_left f rs []) in * ] ] ] ]
  end.
  - apply phi_deviations_fold_names; [constructor | ].
    repeat match goal with
    | |- context [match ?x with _ => _ end] => destruct x; cbv beta iota
    end;
    cbv beta iota zeta delta [app];
    repeat first [apply Forall_nil | apply Forall_cons]; cbv; auto 6.
  - intros lo ro lm rm Hlo Hro Hlm Hrm Hd.
    rewrite Hlo, Hro, Hlm, Hrm. cbv beta iota.
    rewrite (safe_ratio_ge _ Hd). phi_lookup.
  - intros c n lc rc Hc Hn Hlc Hrc Hd.
    rewrite Hc, Hn, Hlc, Hrc. cbv beta iota.
    rewrite (safe_ratio_ge _ Hd). phi_lookup.
  - intros sn st c Hsn Hst Hc Hd.
    rewrite Hsn, Hst, Hc. cbv beta iota.
    rewrite (safe_ratio_ge _ Hd). phi_lookup.
  - intro H. exists pd. split.
    + clearbody pd. clear Hpd Hnames H1 H2 H3. unfold bind in H.
      repeat (first
        [ match type of H with
          | context [match dict_get ?d ?k with _ => _ end] =>
              destruct (dict_get d k)
          end
        | match type of H with
          | context [match metric_get_value ?l with _ => _ end] =>
              destruct (metric_get_value l)
          end
        | match type of H with
          | context [match as_floats ?l with _ => _ end] =>
              destruct (as_floats l)
          end
        | match type of H with
          | context [match _get_point ?x ?n with _ => _ end] =>
              destruct (_get_point x n)
          end ];
        cbv beta iota in H; simpl app in H; cbv beta iota in H;
        try discriminate H).
      all: injection H as <-;
        repeat first
          [ rewrite dict_get_set_eq
          | rewrite dict_get_set_ne by reflexivity ];
        reflexivity.
    + clear H. split; [ | split; [exact H1 | split; [exact H2 | exact H3]]].
      apply Forall_and_both; [exact Hnames | ].
      eapply Forall_impl; [ | exact Hpd].
      intros kv (ratio & Hkv). exists ratio.
      split; [exact Hkv | apply phi_deviation_zero].
Qed.

(** The engine on a face with a nose tip, a chin tip, a subnasale and a
    stomion. *)
Lemma face_analyzer :
  exists a,
    FaceAnalyzer_init face_landmarks None (Some face_index_map) = Ok a /\
    _get_point a "nose_tip" = Some (mkP3 0.45 0.55 0.1) /\
    _get_point a "chin_tip" = Some (mkP3 0.5 0.8 0.05) /\
    _get_point a "subnasale" = Some (mkP3 0.5 0.6 0) /\
    _get_point a "stomion" = Some (mkP3 0.5 0.7 0) /\
    _get_point a "L_ear_top" = None /\
    _get_point a "R_ear_top" = None.
Proof.
  eexists. split; [reflexivity | ].
  assert (Hv : init_visibility face_landmarks = repeat 1 4%nat).
  { unfold init_visibility. simpl. rewrite Reqb_1_0. reflexivity. }
  match goal with
  | |- _get_point ?a _ = _ /\ _ =>
      assert (Hget : forall name, _get_point a name = resolve_point a name)
  end.
  { intro name. apply _get_point_confident.
    - cbn [visibility points]. rewrite Hv. reflexivity.
    - cbn [visibility visibility_threshold]. rewrite Hv.
      apply all_ones_confident. }
  rewrite !Hget.
  repeat split; reflexivity.
Qed.

Lemma face_pose (a : FaceAnalyzer) :
  eps a = 1e-8 ->
  _get_point a "nose_tip" = Some (mkP3 0.45 0.55 0.1) ->
  _get_point a "chin_tip" = Some (mkP3 0.5 0.8 0.05) ->
  _get_point a "L_ear_top" = None ->
  _estimate_pose a
  = [ ("yaw_deg", PFloat (degrees (asin (clip (0.45 * 2) (-1) 1))));
      ("pitch_deg",
       PFloat (degrees (arctan2 (0.8 - 0.55)
                                (Rabs (0.05 - 0.1) + 1e-8)))) ].
Proof.
  intros He Hn Hc Hl. unfold _estimate_pose.
  rewrite He, Hn, Hc, Hl. reflexivity.
Qed.

Lemma pose_angles_bounded_witness :
  exists a yaw pitch,
    FaceAnalyzer_init face_landmarks None (Some face_index_map) = Ok a /\
    dict_get (_estimate_pose a) "yaw_deg" = Some (PFloat yaw) /\
    dict_get (_estimate_pose a) "pitch_deg" = Some (PFloat pitch) /\
    -90 <= yaw <= 90 /\ -90 < pitch < 90.
Proof.
  destruct face_analyzer as (a & Hinit & Hn & Hc & _ & _ & Hl & _).
  pose proof (face_pose a (FaceAnalyzer_init_eps _ _ _ Hinit) Hn Hc Hl)
    as Hpose.
  assert (Hy : dict_get (_estimate_pose a) "yaw_deg"
               = Some (PFloat (degrees (asin (clip (0.45 * 2) (-1) 1)))))
    by (rewrite Hpose; reflexivity).
  assert (Hp : dict_get (_estimate_pose a) "pitch_deg"
               = Some (PFloat (degrees (arctan2 (0.8 - 0.55)
                                          (Rabs (0.05 - 0.1) + 1e-8)))))
    by (rewrite Hpose; reflexivity).
  destruct (@pose_angles_bounded face_landmarks None (Some face_index_map)
              a Hinit) as (Hyaw & Hpitch).
  exists a. eexists. eexists.
  exact (conj Hinit (conj Hy (conj Hp
           (conj (Hyaw _ Hy) (Hpitch _ Hp))))).
Defined.

Lemma phi_deviations_spec_witness :
  exists a g pd,
    FaceAnalyzer_init face_landmarks None (Some face_index_map) = Ok a /\
    analyze_golden_diagnostics a (analyze_structure a) = Ok g /\
    dict_get g "phi_deviations" = Some (PDict pd) /\
    dict_get pd "nose_mouth_to_mouth_chin_phi_deviation"
    = Some (create_metric
              (PFloat (Rabs (dist (mkP3 0.5 0.6 0) (mkP3 0.5 0.7 0) D2
                             / dist (mkP3 0.5 0.7 0) (mkP3 0.5 0.8 0.05) D2
                             - PHI) / PHI))
              "2D" [] true 0.8).
Proof.
  destruct face_analyzer as (a & Hinit & _ & Hc & Hsn & Hst & _ & _).
  destruct (@analyze_ok polyfit_parabola a (FaceAnalyzer_init_eps _ _ _ Hinit))
    as (g & Hg & _).
  destruct (@phi_deviations_spec a (analyze_structure a) g Hg)
    as (pd & Hpd & _ & _ & _ & H3).
  assert (Hd : 1e-8 <= dist (mkP3 0.5 0.7 0) (mkP3 0.5 0.8 0.05) D2)
    by (rewrite dist_vertical; lra).
  exists a, g, pd.
  exact (conj Hinit (conj Hg (conj Hpd (H3 _ _ _ Hsn Hst Hc Hd)))).
Defined.

(** ** An empty custom index map *)

Lemma py_path_tail (k0 : string) (v0 : pyval) (d : dict pyval)
    (k : string) :
  k <> k0 -> py_path (PDict ((k0, v0) :: d)) [k] = py_path (PDict d) [k].
Proof.
  intro Hk. simpl.
  destruct (String.eqb k0 k) eqn:E; [ | reflexivity].
  apply String.eqb_eq in E. congruence.
Qed.

Section EmptyIndexMap.

Variable np_polyfit : list R -> list R -> nat -> result (list R).

(** X18: an empty custom index map is treated as no map for the
    lookups (the compiled-in indices are used) but not for the flag: the
    result equals the one for the default map under every top-level key
    except [normalization], where the scale basis is the same and
    [fallback_indices_used] is false instead of true. *)
Theorem empty_index_map_uses_fallback lms bs a0 a1 :
  FaceAnalyzer_init lms bs None = Ok a0 ->
  FaceAnalyzer_init lms bs (Some []) = Ok a1 ->
  let r0 := analyze_face_ratios np_polyfit lms bs None in
  let r1 := analyze_face_ratios np_polyfit lms bs (Some []) in
  index_map a1 = FALLBACK_INDICES /\
  (forall k, k <> "normalization" -> py_path r1 [k] = py_path r0 [k]) /\
  py_path r1 ["normalization"; "scale_basis"]
  = py_path r0 ["normalization"; "scale_basis"] /\
  py_path r0 ["normalization"; "fallback_indices_used"]
  = Some (PBool true) /\
  py_path r1 ["normalization"; "fallback_indices_used"]
  = Some (PBool false).
Proof.
  intros H0 H1 r0 r1. subst r0 r1. unfold analyze_face_ratios.
  rewrite H0, H1. cbn [bind].
  destruct (@analyze_ok np_polyfit a0 (FaceAnalyzer_init_eps _ _ _ H0))
    as (g0 & Hg0 & ->).
  destruct (@analyze_ok np_polyfit a1 (FaceAnalyzer_init_eps _ _ _ H1))
    as (g1 & Hg1 & ->).
  destruct (FaceAnalyzer_init_inv _ _ _ H0) as (raw0 & Hr0 & ->).
  destruct (FaceAnalyzer_init_inv _ _ _ H1) as (raw1 & Hr1 & ->).
  rewrite Hr0 in Hr1. injection Hr1 as <-.
  split; [reflexivity | ].
  match type of Hg0 with
  | analyze_golden_diagnostics ?x0 _ = _ =>
      match type of Hg1 with
      | analyze_golden_diagnostics ?x1 _ = _ =>
          assert (Hget : forall name, _get_point x1 name = _get_point x0 name)
            by (intro name; reflexivity);
          rewrite (@analyze_structure_ext x1 x0 Hget eq_refl eq_refl),
            (@analyze_golden_diagnostics_ext x1 x0 Hget), Hg0 in Hg1;
          rewrite (@analyze_eyes_ext x1 x0 Hget eq_refl eq_refl),
            (@analyze_nose_ext x1 x0 Hget eq_refl),
            (@analyze_mouth_ext np_polyfit x1 x0 Hget eq_refl),
            (@analyze_structure_ext x1 x0 Hget eq_refl eq_refl),
            (@analyze_symmetry_ext x1 x0 Hget eq_refl),
            (@analyze_profile_ext x1 x0 Hget eq_refl),
            (@_estimate_pose_ext x1 x0 Hget eq_refl);
          change (analyze_blendshapes x1) with (analyze_blendshapes x0)
      end
  end.
  injection Hg1 as <-.
  split.
  - intros k Hk. rewrite !(@py_path_tail _ _ _ _ Hk). reflexivity.
  - repeat split; reflexivity.
Qed.

End EmptyIndexMap.

Lemma empty_index_map_uses_fallback_witness :
  exists a0 a1,
    FaceAnalyzer_init (ex_landmarks (Some 1) (Some 1)) None None = Ok a0 /\
    FaceAnalyzer_init (ex_landmarks (Some 1) (Some 1)) None (Some [])
    = Ok a1 /\
    index_map a1 = FALLBACK_INDICES /\
    py_path (analyze_face_ratios polyfit_parabola
               (ex_landmarks (Some 1) (Some 1)) None (Some []))
      ["normalization"; "fallback_indices_used"]
    = Some (PBool false).
Proof.
  eexists. eexists. split; [reflexivity | ]. split; [reflexivity | ].
  destruct (@empty_index_map_uses_fallback polyfit_parabola
              (ex_landmarks (Some 1) (Some 1)) None _ _ eq_refl eq_refl)
    as (Him & _ & _ & _ & Hflag).
  split; [exact Him | exact Hflag].
Defined.

(** ** When the thirds ratios are emitted *)

Ltac absent_key :=
  repeat first
    [ rewrite dict_get_set_ne by reflexivity
    | match goal with
      | |- context [dict_get (match ?x with _ => _ end) _] =>
          destruct x; cbv beta iota
      end ];
  reflexivity.

(** X19: for an analyzer built from landmarks, the structure mapping has
    the thirds entries exactly when the glabella, nasion, subnasale and
    chin points are all available and the nasion-subnasale distance
    exceeds 1e-8; their values are then the upper and the lower third over
    the middle third. *)
Theorem thirds_ratios_emitted_iff lms bs im a :
  FaceAnalyzer_init lms bs im = Ok a ->
  (dict_get (analyze_structure a) "upper_to_middle_third" <> None <->
   exists g n s c,
     _compute_glabella a = Some g /\
     _get_point a "nasion" = Some n /\
     _get_point a "subnasale" = Some s /\
     _get_point a "chin_tip" = Some c /\
     1e-8 < dist n s D2) /\
  (forall g n s c,
     _compute_glabella a = Some g ->
     _get_point a "nasion" = Some n ->
     _get_point a "subnasale" = Some s ->
     _get_point a "chin_tip" = Some c ->
     1e-8 < dist n s D2 ->
     dict_get (analyze_structure a) "upper_to_middle_third"
     = Some (create_metric (PFloat (dist g n D2 / dist n s D2)) "2D"
               ["glabella"; "nasion"; "subnasale"] true 1) /\
     dict_get (analyze_structure a) "lower_to_middle_third"
     = Some (create_metric (PFloat (dist s c D2 / dist n s D2)) "2D"
               ["subnasale"; "chin_tip"; "nasion"] true 1)).
Proof.
  intro Hinit. pose proof (FaceAnalyzer_init_eps _ _ _ Hinit) as He.
  split.
  2: { intros g n s c Hg Hn Hs Hc Hmid.
       exact (thirds_ratios_present a He Hg Hn Hs Hc Hmid). }
  split.
  - intro Hne.
    destruct (_compute_glabella a) as [g | ] eqn:Eg.
    2: { exfalso. apply Hne. unfold analyze_structure.
         rewrite Eg. cbv beta iota zeta. absent_key. }
    destruct (_get_point a "subnasale") as [s | ] eqn:Es.
    2: { exfalso. apply Hne. unfold analyze_structure.
         rewrite Eg, Es. cbv beta iota zeta. absent_key. }
    destruct (_get_point a "chin_tip") as [c | ] eqn:Ec.
    2: { exfalso. apply Hne. unfold analyze_structure.
         rewrite Eg, Es, Ec. cbv beta iota zeta. absent_key. }
    destruct (_get_point a "nasion") as [n | ] eqn:En.
    2: { exfalso. apply Hne. unfold analyze_structure.
         rewrite He, Eg, Es, Ec, En. cbv beta iota zeta.
         rewrite (Rltb_false (x := 1e-8) (y := 0)) by lra. absent_key. }
    destruct (Rlt_dec 1e-8 (dist n s D2)) as [Hmid | Hmid].
    + exists g, n, s, c. auto.
    + exfalso. apply Hne. unfold analyze_structure.
      rewrite He, Eg, Es, Ec, En. cbv beta iota zeta.
      rewrite (Rltb_false Hmid). absent_key.
  - intros (g & n & s & c & Hg & Hn & Hs & Hc & Hmid).
    rewrite (proj1 (thirds_ratios_present a He Hg Hn Hs Hc Hmid)).
    discriminate.
Qed.

Lemma thirds_ratios_emitted_iff_witness :
  exists a,
    FaceAnalyzer_init thirds_landmarks None (Some thirds_index_map) = Ok a /\
    dict_get (analyze_structure a) "upper_to_middle_third" <> None.
Proof.
  destruct thirds_analyzer as (a & Hinit & Hg & Hn & Hs & Hc).
  exists a. split; [exact Hinit | ].
  apply (proj1 (@thirds_ratios_emitted_iff thirds_landmarks None
                  (Some thirds_index_map) a Hinit)).
  eexists. eexists. eexists. eexists.
  split; [exact Hg | ]. split; [exact Hn | ]. split; [exact Hs | ].
  split; [exact Hc | ]. rewrite dist_vertical; lra.
Defined.

(** ** Array sizes and negative indices *)

Lemma length_init_visibility (lms : list Landmark) :
  List.length (init_visibility lms) = List.length lms.
Proof.
  unfold init_visibility. destruct (all_zero _); apply length_map.
Qed.

Lemma FaceAnalyzer_init_sizes lms bs im a :
  FaceAnalyzer_init lms bs im = Ok a ->
  List.length (points a) = List.length lms /\
  List.length (visibility a) = List.length lms.
Proof.
  intro Hinit.
  destruct (FaceAnalyzer_init_inv _ _ _ Hinit) as (raw & Hraw & ->).
  cbn [points visibility].
  rewrite length_apply_roll_correction, (landmark_rows_length _ Hraw),
    length_init_visibility.
  split; reflexivity.
Qed.

(** X21: an analyzer built from landmarks has one point row and one
    confidence value per landmark, the threshold 0.3, the epsilon 1e-8 and a
    strictly positive scale basis. *)
Theorem FaceAnalyzer_init_invariant lms bs im a :
  FaceAnalyzer_init lms bs im = Ok a ->
  List.length (points a) = List.length lms /\
  List.length (visibility a) = List.length lms /\
  visibility_threshold a = 0.3 /\
  eps a = 1e-8 /\
  0 < scale_basis a.
Proof.
  intro Hinit.
  destruct (@FaceAnalyzer_init_sizes _ _ _ _ Hinit) as (Hp & Hv).
  pose proof (FaceAnalyzer_init_scale_pos _ _ _ Hinit) as Hs.
  pose proof (FaceAnalyzer_init_eps _ _ _ Hinit) as He.
  destruct (FaceAnalyzer_init_inv _ _ _ Hinit) as (raw & _ & Ha).
  repeat split; try assumption.
  rewrite Ha. reflexivity.
Qed.

Lemma FaceAnalyzer_init_invariant_witness :
  exists a,
    FaceAnalyzer_init (ex_landmarks (Some 1) (Some 1)) None
      (Some ex_index_map) = Ok a /\
    List.length (points a) = 3%nat /\
    List.length (visibility a) = 3%nat.
Proof.
  eexists. split; [reflexivity | ].
  destruct (@FaceAnalyzer_init_invariant (ex_landmarks (Some 1) (Some 1))
              None (Some ex_index_map) _ eq_refl) as (Hp & Hv & _).
  split; [exact Hp | exact Hv].
Defined.

Lemma np_index_negative {A} (l : list A) (k : nat) :
  ((S k <= List.length l)%nat ->
   np_index l (- Z.of_nat (S k)) = nth_error l (List.length l - S k)) /\
  ((List.length l < S k)%nat -> np_index l (- Z.of_nat (S k)) = None).
Proof.
  unfold np_index.
  destruct (Z.leb_spec 0 (- Z.of_nat (S k))) as [E0 | E0]; [lia | ].
  destruct (Z.leb_spec (- Z.of_nat (List.length l)) (- Z.of_nat (S k)))
    as [E1 | E1]; split; intro H; try lia; try reflexivity.
  f_equal. lia.
Qed.

(** X20: a negative index in the index map passes the upper-bound guard
    and counts from the end of the point array: for confident landmarks,
    index -(k+1) returns row len - (k+1) when the array has at least k+1
    rows, and nothing otherwise. *)
Theorem _get_point_negative_index lms bs im a name k :
  FaceAnalyzer_init lms bs im = Ok a ->
  dict_get (index_map a) name = Some (- Z.of_nat (S k))%Z ->
  (forall v, In v (visibility a) -> ~ v < visibility_threshold a) ->
  ((S k <= List.length lms)%nat ->
   _get_point a name = nth_error (points a) (List.length lms - S k)) /\
  ((List.length lms < S k)%nat -> _get_point a name = None).
Proof.
  intros Hinit Hidx Hconf.
  destruct (@FaceAnalyzer_init_sizes _ _ _ _ Hinit) as (Hp & Hv).
  rewrite _get_point_confident; [ | congruence | exact Hconf].
  unfold resolve_point. rewrite Hidx. rewrite <- Hp.
  apply np_index_negative.
Qed.

Lemma _get_point_negative_index_witness :
  exists a,
    FaceAnalyzer_init (ex_landmarks (Some 1) (Some 1)) None
      (Some negative_index_map) = Ok a /\
    _get_point a "nose_tip" = nth_error (points a) 2.
Proof.
  eexists. split; [reflexivity | ].
  apply (@_get_point_negative_index (ex_landmarks (Some 1) (Some 1)) None
           (Some negative_index_map) _ "nose_tip" 0%nat eq_refl eq_refl).
  - cbn [visibility visibility_threshold].
    assert (Hv : init_visibility (ex_landmarks (Some 1) (Some 1))
                 = repeat 1 3%nat).
    { unfold init_visibility. simpl. rewrite Reqb_1_0. reflexivity. }
    rewrite Hv. apply all_ones_confident.
  - simpl. lia.
Defined.

(** ** When the eye metrics are emitted *)

Lemma eyes_side_frame (a : FaceAnalyzer) (d : dict pyval)
    (side k : string) :
  String.eqb ("fissure_length_" ++ side) k = false ->
  String.eqb ("canthal_tilt_deg_" ++ side) k = false ->
  dict_get (eyes_side a d side) k = dict_get d k.
Proof.
  intros H1 H2. unfold eyes_side. cbv zeta.
  destruct (_get_point a (side ++ "_eye_outer")); [ | reflexivity].
  destruct (_get_point a (side ++ "_eye_inner")); [ | reflexivity].
  rewrite !dict_get_set_ne by assumption. reflexivity.
Qed.

Lemma brow_side_frame (a : FaceAnalyzer) (d : dict pyval)
    (side k : string) :
  String.eqb ("brow_height_" ++ side) k = false ->
  String.eqb ("brow_slope_" ++ side) k = false ->
  dict_get (brow_side a d side) k = dict_get d k.
Proof.
  intros H1 H2. unfold brow_side. cbv zeta.
  destruct (_get_point a (side ++ "_brow_inner")); [ | reflexivity].
  destruct (_get_point a (side ++ "_brow_outer")); [ | reflexivity].
  destruct (_get_point a (side ++ "_eye_inner")); [ | reflexivity].
  rewrite !dict_get_set_ne by assumption. reflexivity.
Qed.

Lemma eyes_side_emitted (a : FaceAnalyzer) (d : dict pyval)
    (side : string) :
  dict_get d ("fissure_length_" ++ side) = None ->
  dict_get d ("canthal_tilt_deg_" ++ side) = None ->
  String.eqb ("canthal_tilt_deg_" ++ side) ("fissure_length_" ++ side)
  = false ->
  let available :=
    exists outer inner,
      _get_point a (side ++ "_eye_outer") = Some outer /\
      _get_point a (side ++ "_eye_inner") = Some inner in
  (dict_get (eyes_side a d side) ("fissure_length_" ++ side) <> None <->
   available) /\
  (dict_get (eyes_side a d side) ("canthal_tilt_deg_" ++ side) <> None <->
   available).
Proof.
  intros Hf Hc Hne available. subst available. unfold eyes_side. cbv zeta.
  destruct (_get_point a (side ++ "_eye_outer")) as [o | ];
    destruct (_get_point a (side ++ "_eye_inner")) as [i | ].
  - rewrite (@dict_get_set_ne _ _ _ _ _ Hne), !dict_get_set_eq.
    split; (split; [intros _; eauto | intros _; discriminate]).
  - rewrite Hf, Hc.
    split; (split; [intro H; exfalso; apply H; reflexivity
                   | intros (? & ? & ? & ?); discriminate]).
  - rewrite Hf, Hc.
    split; (split; [intro H; exfalso; apply H; reflexivity
                   | intros (? & ? & ? & ?); discriminate]).
  - rewrite Hf, Hc.
    split; (split; [intro H; exfalso; apply H; reflexivity
                   | intros (? & ? & ? & ?); discriminate]).
Qed.

(** X22: for each side, the eyes mapping has the fissure-length entry,
    and likewise the canthal-tilt entry, exactly when both the outer and
    the inner canthus point of that side are available. *)
Theorem eye_metrics_emitted_iff (a : FaceAnalyzer) (side : string) :
  side = "L" \/ side = "R" ->
  let available :=
    exists outer inner,
      _get_point a (side ++ "_eye_outer") = Some outer /\
      _get_point a (side ++ "_eye_inner") = Some inner in
  (dict_get (analyze_eyes a) ("fissure_length_" ++ side) <> None <->
   available) /\
  (dict_get (analyze_eyes a) ("canthal_tilt_deg_" ++ side) <> None <->
   available).
Proof.
  intros Hside available. subst available.
  unfold analyze_eyes. cbv beta iota zeta delta [fold_left].
  assert (Hframe : forall k d,
    String.eqb "intercanthal_over_eye_width" k = false ->
    String.eqb "brow_height_L" k = false ->
    String.eqb "brow_slope_L" k = false ->
    String.eqb "brow_height_R" k = false ->
    String.eqb "brow_slope_R" k = false ->
    dict_get
      (brow_side a
         (brow_side a
            match _get_point a "L_eye_inner" with
            | Some left_inner =>
                match _get_point a "R_eye_inner" with
                | Some right_inner =>
                    match _get_point a "L_eye_outer" with
                    | Some left_outer =>
                        match _get_point a "R_eye_outer" with
                        | Some right_outer =>
                            match
                              safe_ratio (dist left_inner right_inner D2)
                                (dist left_outer right_outer D2) 1e-8
                            with
                            | Some ipd_ratio =>
                                dict_set d "intercanthal_over_eye_width"
                                  (create_metric (PFloat ipd_ratio) "2D"
                                     ["L_eye_inner"; "R_eye_inner";
                                      "L_eye_outer"; "R_eye_outer"]
                                     true 1)
                            | None => d
                            end
                        | None => d
                        end
                    | None => d
                    end
                | None => d
                end
            | None => d
            end "L") "R") k
    = dict_get d k).
  { intros k d Hi H1 H2 H3 H4.
    rewrite (@brow_side_frame a _ "R" _ H3 H4),
      (@brow_side_frame a _ "L" _ H1 H2).
    repeat first
      [ rewrite dict_get_set_ne by assumption
      | match goal with
        | |- context [dict_get (match ?x with _ => _ end) _] =>
            destruct x; cbv beta iota
        end ];
      reflexivity. }
  destruct Hside; subst side; cbn [String.append].
  - rewrite !Hframe by reflexivity.
    rewrite !(@eyes_side_frame a _ "R") by reflexivity.
    apply (@eyes_side_emitted a [] "L"); reflexivity.
  - rewrite !Hframe by reflexivity.
    apply (@eyes_side_emitted a (eyes_side a [] "L") "R");
      try reflexivity;
      rewrite (@eyes_side_frame a _ "L") by reflexivity; reflexivity.
Qed.

Lemma eye_metrics_emitted_iff_witness :
  exists a,
    dict_get (analyze_eyes a) "fissure_length_L" <> None /\
    dict_get (analyze_eyes a) "canthal_tilt_deg_L" <> None.
Proof.
  destruct ex_analyzer as (a & _ & _ & Ho & Hi).
  exists a.
  destruct (@eye_metrics_emitted_iff a "L" (or_introl eq_refl))
    as (Hf & Hc).
  split; [apply Hf | apply Hc]; eexists; eexists; split; eassumption.
Defined.
